(** * ReFrame core diagnostics: [reframe.core.exceptions] and
    [reframe.core.warnings]

    A shallow embedding of the error taxonomy, the cause-chain formatter
    ([ReframeBaseError.__str__]), the stack walker ([user_frame]), the
    severity classifier ([is_severe]), the description generator ([what])
    and the deprecation emitter ([user_deprecation_warning]), followed by
    the properties established about them.

    Exception objects live in a store indexed by object identity, because
    [__cause__] is a mutable reference and a chain may share or revisit
    objects.  Calls that may raise return a [result]. *)

From Stdlib Require Import ZArith String Ascii List Bool Lia.
From stdpp Require Import base option list gmap strings pretty.

Local Open Scope string_scope.
Local Open Scope list_scope.

(** ** Exception classes *)

(** The classes an exception object can be an instance of: the interpreter's
    built-in exception hierarchy, [io.UnsupportedOperation] (the standard
    library's class deriving from both [OSError] and [ValueError]) and every
    class declared in [reframe/core/exceptions.py]. *)
Inductive pyclass : Type :=
  (* built-in *)
  | BaseException | SystemExit | KeyboardInterrupt | GeneratorExit | Exception
  | StopIteration | StopAsyncIteration
  | ArithmeticError | FloatingPointError | OverflowError | ZeroDivisionError
  | AssertionError | AttributeError | BufferError | EOFError
  | ImportError | ModuleNotFoundError
  | LookupError | IndexError | KeyError
  | MemoryError | NameError | UnboundLocalError
  | OSError | BlockingIOError | ChildProcessError
  | ConnectionError | BrokenPipeError | ConnectionAbortedError
  | ConnectionRefusedError | ConnectionResetError
  | FileExistsError | FileNotFoundError | InterruptedError
  | IsADirectoryError | NotADirectoryError | PermissionError
  | ProcessLookupError | TimeoutError
  | ReferenceError | RuntimeError | NotImplementedError | RecursionError
  | SyntaxError | IndentationError | TabError | SystemError
  | TypeError | ValueError
  | UnicodeError | UnicodeDecodeError | UnicodeEncodeError
  | UnicodeTranslateError
  | UnsupportedOperation
  | Warning | DeprecationWarning
  (* reframe.core.exceptions *)
  | ReframeBaseError | ReframeError | ReframeFatalError | ReframeSyntaxError
  | RegressionTestLoadError | NameConflictError | TaskExit
  | TaskDependencyError | AbortTaskError | ConfigError | LoggingError
  | EnvironError | SanityError | PerformanceError | PipelineError
  | ReframeForceExitError | StatisticsError | BuildSystemError
  | ContainerError | BuildError | SpawnedProcessError | SpawnedProcessTimeout
  | JobSchedulerError | JobError | JobBlockedError | JobNotStartedError
  | DependencyError | ReframeDeprecationWarning
  (* reframe.core.warnings *)
  | warnings_ReframeDeprecationWarning.

Definition all_classes : list pyclass :=
  [ BaseException; SystemExit; KeyboardInterrupt; GeneratorExit; Exception;
    StopIteration; StopAsyncIteration;
    ArithmeticError; FloatingPointError; OverflowError; ZeroDivisionError;
    AssertionError; AttributeError; BufferError; EOFError;
    ImportError; ModuleNotFoundError;
    LookupError; IndexError; KeyError;
    MemoryError; NameError; UnboundLocalError;
    OSError; BlockingIOError; ChildProcessError;
    ConnectionError; BrokenPipeError; ConnectionAbortedError;
    ConnectionRefusedError; ConnectionResetError;
    FileExistsError; FileNotFoundError; InterruptedError;
    IsADirectoryError; NotADirectoryError; PermissionError;
    ProcessLookupError; TimeoutError;
    ReferenceError; RuntimeError; NotImplementedError; RecursionError;
    SyntaxError; IndentationError; TabError; SystemError;
    TypeError; ValueError;
    UnicodeError; UnicodeDecodeError; UnicodeEncodeError;
    UnicodeTranslateError;
    UnsupportedOperation;
    Warning; DeprecationWarning;
    ReframeBaseError; ReframeError; ReframeFatalError; ReframeSyntaxError;
    RegressionTestLoadError; NameConflictError; TaskExit;
    TaskDependencyError; AbortTaskError; ConfigError; LoggingError;
    EnvironError; SanityError; PerformanceError; PipelineError;
    ReframeForceExitError; StatisticsError; BuildSystemError;
    ContainerError; BuildError; SpawnedProcessError; SpawnedProcessTimeout;
    JobSchedulerError; JobError; JobBlockedError; JobNotStartedError;
    DependencyError; ReframeDeprecationWarning;
    warnings_ReframeDeprecationWarning ].

(** [cls.__name__]. *)
Definition __name__ (c : pyclass) : string :=
  match c with
  | BaseException => "BaseException" | SystemExit => "SystemExit"
  | KeyboardInterrupt => "KeyboardInterrupt"
  | GeneratorExit => "GeneratorExit" | Exception => "Exception"
  | StopIteration => "StopIteration"
  | StopAsyncIteration => "StopAsyncIteration"
  | ArithmeticError => "ArithmeticError"
  | FloatingPointError => "FloatingPointError"
  | OverflowError => "OverflowError"
  | ZeroDivisionError => "ZeroDivisionError"
  | AssertionError => "AssertionError" | AttributeError => "AttributeError"
  | BufferError => "BufferError" | EOFError => "EOFError"
  | ImportError => "ImportError"
  | ModuleNotFoundError => "ModuleNotFoundError"
  | LookupError => "LookupError" | IndexError => "IndexError"
  | KeyError => "KeyError" | MemoryError => "MemoryError"
  | NameError => "NameError" | UnboundLocalError => "UnboundLocalError"
  | OSError => "OSError" | BlockingIOError => "BlockingIOError"
  | ChildProcessError => "ChildProcessError"
  | ConnectionError => "ConnectionError"
  | BrokenPipeError => "BrokenPipeError"
  | ConnectionAbortedError => "ConnectionAbortedError"
  | ConnectionRefusedError => "ConnectionRefusedError"
  | ConnectionResetError => "ConnectionResetError"
  | FileExistsError => "FileExistsError"
  | FileNotFoundError => "FileNotFoundError"
  | InterruptedError => "InterruptedError"
  | IsADirectoryError => "IsADirectoryError"
  | NotADirectoryError => "NotADirectoryError"
  | PermissionError => "PermissionError"
  | ProcessLookupError => "ProcessLookupError"
  | TimeoutError => "TimeoutError" | ReferenceError => "ReferenceError"
  | RuntimeError => "RuntimeError"
  | NotImplementedError => "NotImplementedError"
  | RecursionError => "RecursionError" | SyntaxError => "SyntaxError"
  | IndentationError => "IndentationError" | TabError => "TabError"
  | SystemError => "SystemError" | TypeError => "TypeError"
  | ValueError => "ValueError" | UnicodeError => "UnicodeError"
  | UnicodeDecodeError => "UnicodeDecodeError"
  | UnicodeEncodeError => "UnicodeEncodeError"
  | UnicodeTranslateError => "UnicodeTranslateError"
  | UnsupportedOperation => "UnsupportedOperation"
  | Warning => "Warning" | DeprecationWarning => "DeprecationWarning"
  | ReframeBaseError => "ReframeBaseError" | ReframeError => "ReframeError"
  | ReframeFatalError => "ReframeFatalError"
  | ReframeSyntaxError => "ReframeSyntaxError"
  | RegressionTestLoadError => "RegressionTestLoadError"
  | NameConflictError => "NameConflictError" | TaskExit => "TaskExit"
  | TaskDependencyError => "TaskDependencyError"
  | AbortTaskError => "AbortTaskError" | ConfigError => "ConfigError"
  | LoggingError => "LoggingError" | EnvironError => "EnvironError"
  | SanityError => "SanityError" | PerformanceError => "PerformanceError"
  | PipelineError => "PipelineError"
  | ReframeForceExitError => "ReframeForceExitError"
  | StatisticsError => "StatisticsError"
  | BuildSystemError => "BuildSystemError"
  | ContainerError => "ContainerError" | BuildError => "BuildError"
  | SpawnedProcessError => "SpawnedProcessError"
  | SpawnedProcessTimeout => "SpawnedProcessTimeout"
  | JobSchedulerError => "JobSchedulerError" | JobError => "JobError"
  | JobBlockedError => "JobBlockedError"
  | JobNotStartedError => "JobNotStartedError"
  | DependencyError => "DependencyError"
  | ReframeDeprecationWarning => "ReframeDeprecationWarning"
  | warnings_ReframeDeprecationWarning => "ReframeDeprecationWarning"
  end.

(** [cls.__bases__]: the base classes written in each [class] statement
    (for the built-ins, the interpreter's documented hierarchy). *)
Definition __bases__ (c : pyclass) : list pyclass :=
  match c with
  | BaseException => []
  | SystemExit | KeyboardInterrupt | GeneratorExit | Exception =>
      [BaseException]
  | StopIteration | StopAsyncIteration | ArithmeticError | AssertionError
  | AttributeError | BufferError | EOFError | ImportError | LookupError
  | MemoryError | NameError | OSError | ReferenceError | RuntimeError
  | SyntaxError | SystemError | TypeError | ValueError | Warning =>
      [Exception]
  | FloatingPointError | OverflowError | ZeroDivisionError =>
      [ArithmeticError]
  | ModuleNotFoundError => [ImportError]
  | IndexError | KeyError => [LookupError]
  | UnboundLocalError => [NameError]
  | BlockingIOError | ChildProcessError | ConnectionError | FileExistsError
  | FileNotFoundError | InterruptedError | IsADirectoryError
  | NotADirectoryError | PermissionError | ProcessLookupError
  | TimeoutError => [OSError]
  | BrokenPipeError | ConnectionAbortedError | ConnectionRefusedError
  | ConnectionResetError => [ConnectionError]
  | NotImplementedError | RecursionError => [RuntimeError]
  | IndentationError => [SyntaxError]
  | TabError => [IndentationError]
  | UnicodeError => [ValueError]
  | UnicodeDecodeError | UnicodeEncodeError | UnicodeTranslateError =>
      [UnicodeError]
  | UnsupportedOperation => [OSError; ValueError]
  | DeprecationWarning => [Warning]
  (* reframe/core/exceptions.py *)
  | ReframeBaseError => [BaseException]
  | ReframeError => [ReframeBaseError; Exception]
  | ReframeFatalError => [ReframeBaseError]
  | ReframeSyntaxError | RegressionTestLoadError | TaskExit
  | TaskDependencyError | AbortTaskError | ConfigError | LoggingError
  | EnvironError | SanityError | PerformanceError | PipelineError
  | ReframeForceExitError | StatisticsError | BuildSystemError
  | ContainerError | BuildError | SpawnedProcessError | JobSchedulerError
  | JobError | DependencyError => [ReframeError]
  | NameConflictError => [RegressionTestLoadError]
  | SpawnedProcessTimeout => [SpawnedProcessError]
  | JobBlockedError | JobNotStartedError => [JobError]
  | ReframeDeprecationWarning | warnings_ReframeDeprecationWarning =>
      [DeprecationWarning]
  end.

#[global] Instance pyclass_eq_dec : EqDecision pyclass.
Proof. solve_decision. Defined.

(** The class itself followed by everything reachable through [__bases__],
    explored to the given depth. *)
Fixpoint ancestors (depth : nat) (c : pyclass) : list pyclass :=
  c :: match depth with
       | O => []
       | S d => flat_map (ancestors d) (__bases__ c)
       end.

(** No inheritance path in the hierarchy above is longer than this. *)
Definition hierarchy_depth : nat := 6.

(** [issubclass(c, base)]. *)
Definition issubclass (c base : pyclass) : bool :=
  bool_decide (base ∈ ancestors hierarchy_depth c).

(** [issubclass(c, (base1, base2, ...))]. *)
Definition issubclass_any (c : pyclass) (bases : list pyclass) : bool :=
  existsb (issubclass c) bases.

(** ** Results of calls *)

(** A call returns a value, raises an exception of some class with a
    message, or descends past the depth it was allowed.  The last outcome is
    what the interpreter reports as [RecursionError] once the depth reaches
    [sys.getrecursionlimit()]; it is kept apart from [Raise] because no line
    of the program raises it. *)
Inductive result (A : Type) : Type :=
  | Ok (a : A)
  | Raise (cls : pyclass) (msg : string)
  | DepthExceeded.
Arguments Ok {A} a.
Arguments Raise {A} cls msg.
Arguments DepthExceeded {A}.

#[global] Instance result_ret : MRet result := fun A a => Ok a.
#[global] Instance result_bind : MBind result := fun A B f m =>
  match m with
  | Ok a => f a
  | Raise cls msg => Raise cls msg
  | DepthExceeded => DepthExceeded
  end.

(** ** Strings *)

Definition nl : string := String (ascii_of_nat 10) EmptyString.

(** [s or ''] for an optional string. *)
Definition or_empty (s : option string) : string :=
  match s with
  | Some m => m
  | None => ""
  end.

(** Truth value of a string: non-empty. *)
Definition truthy (s : string) : bool :=
  match s with
  | EmptyString => false
  | String _ _ => true
  end.

(** [s.split(c)] for a one-character separator. *)
Fixpoint split (c : ascii) (s : string) : list string :=
  match s with
  | EmptyString => [EmptyString]
  | String x rest =>
      if Ascii.eqb x c then EmptyString :: split c rest
      else match split c rest with
           | w :: ws => String x w :: ws
           | [] => [String x EmptyString]
           end
  end.

(** [s.startswith(p)]. *)
Definition startswith (s p : string) : bool := String.prefix p s.

(** [str(n)] for an integer. *)
Definition str_int (n : Z) : string := pretty n.

(** [str(x)] for an optional integer ([None] prints as its name). *)
Definition str_opt_int (x : option Z) : string :=
  match x with
  | Some n => str_int n
  | None => "None"
  end.

Definition str_opt (x : option string) : string :=
  match x with
  | Some s => s
  | None => "None"
  end.

(** ** Exception objects and the store *)

(** Instance attributes set by the constructors of the classes that carry
    more than a message. *)
Inductive payload : Type :=
  | NoFields
  | SpawnedFields (_command _stdout _stderr : string) (_exitcode : option Z)
      (_timeout : option Z)
  | JobFields (_jobid : option string).

(** An exception object.  [_message] is the attribute set by
    [ReframeBaseError.__init__]; [base_str] is what the built-in [__str__]
    returns for the object, read only for classes that do not derive from
    [ReframeBaseError] (which overrides it); [__cause__] is the identity of
    the cause, set by [raise ... from ...]. *)
Record exc_obj : Type := ExcObj {
  ob_type : pyclass;
  _message : option string;
  base_str : string;
  __cause__ : option nat;
  fields : payload
}.

(** An instance of a built-in class whose [str()] is [s]. *)
Definition builtin_exc (cls : pyclass) (s : string) : exc_obj :=
  {| ob_type := cls; _message := None; base_str := s; __cause__ := None;
     fields := NoFields |}.

(** [raise e from cause]: the statement stores the cause in the object. *)
Definition raise_from (e : exc_obj) (cause : nat) : exc_obj :=
  {| ob_type := ob_type e; _message := _message e; base_str := base_str e;
     __cause__ := Some cause; fields := fields e |}.

Definition set_message (e : exc_obj) (m : string) : exc_obj :=
  {| ob_type := ob_type e; _message := Some m; base_str := base_str e;
     __cause__ := __cause__ e; fields := fields e |}.

Definition set_fields (e : exc_obj) (p : payload) : exc_obj :=
  {| ob_type := ob_type e; _message := _message e; base_str := base_str e;
     __cause__ := __cause__ e; fields := p |}.

(** [isinstance(e, cls)] and [isinstance(e, (cls1, cls2, ...))]. *)
Definition isinstance (e : exc_obj) (cls : pyclass) : bool :=
  issubclass (ob_type e) cls.
Definition isinstance_any (e : exc_obj) (clss : list pyclass) : bool :=
  issubclass_any (ob_type e) clss.

(** *** Constructors *)

(** [ReframeBaseError.__init__(self, *args)], for an instance of [cls];
    the arguments are given already converted by [str]. *)
Definition ReframeBaseError_init (cls : pyclass) (args : list string)
  : exc_obj :=
  {| ob_type := cls;
     _message := match args with
                 | a :: _ => Some a
                 | [] => None
                 end;
     base_str := "";
     __cause__ := None;
     fields := NoFields |}.

(** [BuildError.__init__(self, stdout, stderr)]. *)
Definition BuildError_init (stdout stderr : string) : exc_obj :=
  let self := ReframeBaseError_init BuildError [] in
  set_message self
    ("standard error can be found in `" +:+ stderr +:+ "', " +:+
     "standard output can be found in `" +:+ stdout +:+ "'").

(** The command of a spawned process: a string or a sequence of words. *)
Inductive cmd_args : Type :=
  | CmdStr (s : string)
  | CmdList (words : list string).

Definition command_of (args : cmd_args) : string :=
  match args with
  | CmdStr s => s
  | CmdList words => String.concat " " words
  end.

(** [SpawnedProcessError.__init__(self, args, stdout, stderr, exitcode)],
    for an instance of [cls] ([SpawnedProcessError] or a subclass). *)
Definition SpawnedProcessError_init (cls : pyclass) (args : cmd_args)
    (stdout stderr : string) (exitcode : option Z) : exc_obj :=
  let self := ReframeBaseError_init cls [] in
  let command := command_of args in
  let self := set_fields self
                (SpawnedFields command stdout stderr exitcode None) in
  let lines :=
    ["command '" +:+ command +:+ "' failed with exit code " +:+
     str_opt_int exitcode +:+ ":"] in
  let lines := lines ++ ["=== STDOUT ==="] in
  let lines := if truthy stdout then lines ++ [stdout] else lines in
  let lines := lines ++ ["=== STDERR ==="] in
  let lines := if truthy stderr then lines ++ [stderr] else lines in
  set_message self (String.concat nl lines).

(** [SpawnedProcessTimeout.__init__(self, args, stdout, stderr, timeout)];
    the timeout is taken in whole seconds. *)
Definition SpawnedProcessTimeout_init (args : cmd_args)
    (stdout stderr : string) (timeout : Z) : exc_obj :=
  let self :=
    SpawnedProcessError_init SpawnedProcessTimeout args stdout stderr None in
  let command := command_of args in
  let self := set_fields self
                (SpawnedFields command stdout stderr None (Some timeout)) in
  let lines :=
    ["command '" +:+ command +:+ "' timed out after " +:+
     str_int timeout +:+ "s:"] in
  let lines := lines ++ ["=== STDOUT ==="] in
  let lines := if truthy stdout then lines ++ [stdout] else lines in
  let lines := lines ++ ["=== STDERR ==="] in
  let lines := if truthy stderr then lines ++ [stderr] else lines in
  set_message self (String.concat nl lines).

(** [JobError.__init__(self, msg=None, jobid=None)], for [JobError] or a
    subclass. *)
Definition JobError_init (cls : pyclass) (msg jobid : option string)
  : exc_obj :=
  let message := "[jobid=" +:+ str_opt jobid +:+ "]" in
  let message := if truthy (or_empty msg)
                 then message +:+ " " +:+ or_empty msg
                 else message in
  set_fields (ReframeBaseError_init cls [message]) (JobFields jobid).

(** *** Rendering *)

(** [ReframeBaseError.__str__(self)], with [str] the rendering used for the
    cause and [h] the store in which [__cause__] is looked up. *)
Definition ReframeBaseError_str (str : exc_obj -> result string)
    (h : gmap nat exc_obj) (self : exc_obj) : result string :=
  let ret := or_empty (_message self) in
  match __cause__ self with
  | Some c =>
      match h !! c with
      | Some cause => s ← str cause; Ok (ret +:+ ": " +:+ s)
      | None => Raise SystemError "reference to an object not in the store"
      end
  | None => Ok ret
  end.

(** [str(e)]: instances of [ReframeBaseError] use the method above, every
    other exception the built-in one.  [depth] bounds the nesting of calls. *)
Fixpoint py_str (depth : nat) (h : gmap nat exc_obj) (e : exc_obj)
  : result string :=
  match depth with
  | O => DepthExceeded
  | S d =>
      if isinstance e ReframeBaseError
      then ReframeBaseError_str (py_str d h) h e
      else Ok (base_str e)
  end.

(** ** Tracebacks and frames *)

(** [inspect.FrameInfo]: one captured frame. *)
Record FrameInfo : Type := mkFrameInfo {
  filename : string;
  lineno : Z;
  function : string;
  code_context : option (list string)
}.

(** What can be passed where a traceback is expected.  A traceback is
    represented by the list [inspect.getinnerframes] computes from it: the
    frame where the exception was caught first, the frame that raised last. *)
Inductive pyobject : Type :=
  | PyNone
  | PyInt (n : Z)
  | PyStr (s : string)
  | PyTraceback (frames : list FrameInfo).

Definition inspect_istraceback (tb : pyobject) : bool :=
  match tb with
  | PyTraceback _ => true
  | _ => false
  end.

Definition inspect_getinnerframes (tb : pyobject) : list FrameInfo :=
  match tb with
  | PyTraceback frames => frames
  | _ => []
  end.

Definition os_sep : ascii := "/"%char.
Definition os_curdir : string := ".".

Definition is_Some_b {A : Type} (x : option A) : bool :=
  match x with
  | Some _ => true
  | None => false
  end.

(** [x or y] where a false or absent left operand is [None]. *)
Definition py_or {A : Type} (x y : option A) : option A :=
  match x with
  | Some _ => x
  | None => y
  end.

(** ** Concrete surroundings *)

(** Modelled from the spec: [decamelize] of [reframe.utility], whose source
    is not part of the two files above.  The spec describes its result on a
    class name as the lowercase, delimiter-separated form of the name: the
    delimiter goes between a lowercase letter and the capital that follows
    it, and every letter is lowered. *)
Definition is_lower (c : ascii) : bool :=
  let n := nat_of_ascii c in (97 <=? n)%nat && (n <=? 122)%nat.
Definition is_upper (c : ascii) : bool :=
  let n := nat_of_ascii c in (65 <=? n)%nat && (n <=? 90)%nat.
Definition lower (c : ascii) : ascii :=
  if is_upper c then ascii_of_nat (nat_of_ascii c + 32) else c.

Fixpoint utility_decamelize (s delim : string) : string :=
  match s with
  | EmptyString => EmptyString
  | String a rest =>
      match rest with
      | String b _ =>
          if is_lower a && is_upper b
          then String a (delim +:+ utility_decamelize rest delim)
          else String (lower a) (utility_decamelize rest delim)
      | EmptyString => String (lower a) EmptyString
      end
  end.

(** [os.path.relpath] as [posixpath] computes it for non-empty paths, with
    the working directory made explicit. *)
Module posixpath.
Definition parts (p : string) : list string :=
  List.filter truthy (split os_sep p).

(** The component loop of [normpath] for an absolute path; [acc] holds
    the components kept so far, last first. *)
Fixpoint norm (acc comps : list string) : list string :=
  match comps with
  | [] => rev acc
  | c :: cs =>
      if String.eqb c "." then norm acc cs
      else if String.eqb c ".." then norm (tl acc) cs
      else norm (c :: acc) cs
  end.

Definition abspath_parts (cwd p : string) : list string :=
  norm [] (parts (if startswith p "/" then p else cwd +:+ "/" +:+ p)).

Fixpoint commonprefix_len (a b : list string) : nat :=
  match a, b with
  | x :: a', y :: b' =>
      if String.eqb x y then S (commonprefix_len a' b') else O
  | _, _ => O
  end.

Definition relpath (cwd path start : string) : string :=
  let start_list := abspath_parts cwd start in
  let path_list := abspath_parts cwd path in
  let i := commonprefix_len start_list path_list in
  let rel_list :=
    repeat ".." (length start_list - i) ++ drop i path_list in
  match rel_list with
  | [] => "."
  | _ => String.concat "/" rel_list
  end.
End posixpath.

(** ** Deprecation warnings *)

(** An entry of [inspect.stack()], with the name of the module
    [inspect.getmodule] finds for its frame, if it finds one. *)
Record stack_entry : Type := mkStackEntry {
  s_module : option string;
  s_filename : string;
  s_lineno : Z
}.

(** A call of [warnings.warn(message, category, stacklevel=...)]. *)
Record warning : Type := mkWarning {
  w_message : string;
  w_category : pyclass;
  w_stacklevel : nat
}.

(** [warnings.warn] adds the warning to those issued so far. *)
Definition warnings_warn (message : string) (category : pyclass)
    (stacklevel : nat) (issued : list warning) : list warning :=
  issued ++ [mkWarning message category stacklevel].

(** The condition of the [break]: no module, or a module whose name does
    not start with [reframe]. *)
Definition leaves_framework (s : stack_entry) : bool :=
  match s_module s with
  | None => true
  | Some name => negb (startswith name "reframe")
  end.

(** The loop of [user_deprecation_warning]: [stack_level] on entry, its
    value when the loop ends. *)
Fixpoint unroll_stack (stack : list stack_entry) (stack_level : nat) : nat :=
  match stack with
  | [] => stack_level
  | s :: rest =>
      if leaves_framework s then stack_level
      else unroll_stack rest (stack_level + 1)
  end.

(** [user_deprecation_warning(message)] as defined in
    [reframe/core/exceptions.py], called when [inspect.stack()] gives
    [stack] (the function's own frame first). *)
Definition user_deprecation_warning (stack : list stack_entry)
    (message : string) (issued : list warning) : list warning :=
  let stack_level := unroll_stack stack 1 in
  warnings_warn message ReframeDeprecationWarning stack_level issued.

Module warnings_py.
(** The same function as [reframe/core/warnings.py] defines it. *)
Definition user_deprecation_warning (stack : list stack_entry)
    (message : string) (issued : list warning) : list warning :=
  let stack_level := unroll_stack stack 1 in
  warnings_warn message warnings_ReframeDeprecationWarning stack_level
    issued.
End warnings_py.

(** The frame a warning issued with [stacklevel] is reported at: level 1 is
    the function that called [warnings.warn], level 2 its caller, and so on;
    there is none past the outermost frame. *)
Definition frame_at_level (stack : list stack_entry) (stacklevel : nat)
  : option stack_entry :=
  match stacklevel with
  | O => None
  | S i => stack !! i
  end.

(** ** Attributes and indexing *)

(** The read-only properties of the classes: [message] of
    [ReframeBaseError]; [command], [stdout], [stderr] and [exitcode] of
    [SpawnedProcessError]; [timeout] of [SpawnedProcessTimeout]; [jobid] of
    [JobError].  An object that was not given the attribute has none. *)
Definition message (e : exc_obj) : option string := _message e.

Definition command (e : exc_obj) : option string :=
  match fields e with
  | SpawnedFields c _ _ _ _ => Some c
  | _ => None
  end.

Definition stdout (e : exc_obj) : option string :=
  match fields e with
  | SpawnedFields _ out _ _ _ => Some out
  | _ => None
  end.

Definition stderr (e : exc_obj) : option string :=
  match fields e with
  | SpawnedFields _ _ err _ _ => Some err
  | _ => None
  end.

Definition exitcode (e : exc_obj) : option (option Z) :=
  match fields e with
  | SpawnedFields _ _ _ code _ => Some code
  | _ => None
  end.

Definition timeout (e : exc_obj) : option Z :=
  match fields e with
  | SpawnedFields _ _ _ _ t => t
  | _ => None
  end.

Definition jobid (e : exc_obj) : option (option string) :=
  match fields e with
  | JobFields j => Some j
  | _ => None
  end.

(** [l[i]] for a list: a negative index counts from the end, and an index
    out of range gives nothing (the interpreter raises IndexError). *)
Definition py_getitem {A : Type} (l : list A) (i : Z) : option A :=
  let n := Z.of_nat (length l) in
  if ((0 <=? i) && (i <? n))%Z then l !! Z.to_nat i
  else if ((- n <=? i) && (i <? 0))%Z then l !! Z.to_nat (n + i)
  else None.

(** ** Sample objects *)

(** A session started in [/home/user/work] with the framework installed
    under [/opt/rf], which is the first entry of [sys.path]. *)
Definition run_relpath : string -> string -> string :=
  posixpath.relpath "/home/user/work".
Definition run_sys_path0 : string := "/opt/rf".

Definition pipeline_frame : FrameInfo :=
  mkFrameInfo "/opt/rf/reframe/core/pipeline.py" 812 "_setup_paths"
    (Some ["        self._stagedir = rt.make_stagedir(name)"]).
Definition executor_frame : FrameInfo :=
  mkFrameInfo "/opt/rf/reframe/frontend/executors/__init__.py" 270 "setup"
    None.
Definition check_frame : FrameInfo :=
  mkFrameInfo "/home/user/work/checks/hello.py" 14 "set_sanity"
    (Some ["        self.sanity_patterns = 3 + 'x'"]).

(** The example of the docstring of [ReframeBaseError]. *)
Definition message_1 : exc_obj :=
  ReframeBaseError_init ReframeError ["error message 1"].
Definition message_2 : exc_obj :=
  raise_from (ReframeBaseError_init ReframeError ["error message 2"]) 1.
Definition docstring_store : gmap nat exc_obj := {[ 1%nat := message_1 ]}.

(** A chain of three, the innermost a built-in error. *)
Definition three_store : gmap nat exc_obj :=
  {[ 1%nat := builtin_exc FileNotFoundError "no such file";
     2%nat := raise_from
                (ReframeBaseError_init ConfigError ["bad site config"]) 1 ]}.
Definition three_top : exc_obj :=
  raise_from (ReframeBaseError_init ReframeError ["could not start"]) 2.

Definition user_type_error : exc_obj :=
  builtin_exc TypeError "unsupported operand".

Definition blocked_job : exc_obj :=
  JobError_init JobBlockedError (Some "blocked") (Some "4711").

Definition fatal_error : exc_obj :=
  ReframeBaseError_init ReframeFatalError ["no runtime available"].

Definition interrupt : exc_obj := builtin_exc KeyboardInterrupt "".

(** A framework error that was raised from itself. *)
Definition self_caused : exc_obj :=
  raise_from (ReframeBaseError_init ReframeError ["retry failed"]) 0.
Definition self_store : gmap nat exc_obj := {[ 0%nat := self_caused ]}.

(** The emitter called by [deprecated_api] of [reframe.core.fields], itself
    called by [reframe.core.pipeline], itself called by a user's check. *)
Definition emitter_stack : list stack_entry :=
  [ mkStackEntry (Some "reframe.core.exceptions")
      "/opt/rf/reframe/core/exceptions.py" 371;
    mkStackEntry (Some "reframe.core.fields")
      "/opt/rf/reframe/core/fields.py" 40;
    mkStackEntry (Some "reframe.core.pipeline")
      "/opt/rf/reframe/core/pipeline.py" 220;
    mkStackEntry (Some "hello") "/home/user/work/checks/hello.py" 9;
    mkStackEntry (Some "__main__") "/opt/rf/bin/reframe" 3 ].

(** A run-time error raised by a user's check, an aborted task and the
    interrupt that caused it, and a timed-out command. *)
Definition check_runtime_error : exc_obj :=
  builtin_exc RuntimeError "no such partition".
Definition abort_store : gmap nat exc_obj := {[ 7%nat := interrupt ]}.
Definition aborted_task : exc_obj :=
  raise_from (ReframeBaseError_init AbortTaskError []) 7.
Definition sleep_timeout : exc_obj :=
  SpawnedProcessTimeout_init (CmdList ["sleep"; "10"]) "" "" 5.
Definition exec_frame : FrameInfo :=
  mkFrameInfo "<string>" 1 "<module>" None.

(** A value error whose cause is a key error that has a cause of its
    own. *)
Definition foreign_store : gmap nat exc_obj :=
  {[ 3%nat := builtin_exc LookupError "deepest";
     4%nat := raise_from (builtin_exc KeyError "'nodes'") 3 ]}.
Definition wrapped_key_error : exc_obj :=
  raise_from (ReframeBaseError_init ConfigError ["bad partition"]) 4.

(** The surroundings of [_format_warning] in a session whose run-time
    system is not initialised: the formatter of the standard library
    reduced to its message, a file of two lines, no colours. *)
Definition run_format_orig (message : string) (category : pyclass)
    (filename : string) (lineno : Z) (line : option string) : string :=
  filename +:+ ":" +:+ str_int lineno +:+ ": " +:+ __name__ category +:+
  ": " +:+ message +:+ nl.
Definition hello_lines : list string :=
  ["import reframe as rfm" +:+ nl; "x = rfm.deprecated()" +:+ nl].
Definition run_readlines (filename : string) : result (list string) :=
  if String.eqb filename "/home/user/work/checks/hello.py"
  then Ok hello_lines
  else Raise FileNotFoundError "No such file or directory".
Definition run_colorize_option : result bool :=
  Raise ReframeFatalError "no runtime available".
Definition run_colorize (s : string) : string := "<yellow>" +:+ s.

(** ** The stack walker, the classifier and the description generator *)

Section Reframe.
(** The surroundings of the module: [os.path.relpath] of the standard
    library, as a function of the path and of the start directory on the
    non-empty file names that frames carry; the first entry of [sys.path];
    and [decamelize] of [reframe.utility], whose source is in another
    file. *)
Context (os_path_relpath : string -> string -> string)
        (sys_path0 : string)
        (decamelize : string -> string -> string).

(** The test in the loop of [user_frame]: the first component of the
    file's path relative to [sys.path[0]] is not [reframe]. *)
Definition outside_reframe (finfo : FrameInfo) : bool :=
  let relpath := os_path_relpath (filename finfo) sys_path0 in
  negb (String.eqb (hd "" (split os_sep relpath)) "reframe").

(** The [for] loop of [user_frame] over the frames it is given. *)
Fixpoint user_frame_loop (finfos : list FrameInfo) : option FrameInfo :=
  match finfos with
  | [] => None
  | finfo :: rest =>
      if outside_reframe finfo then Some finfo else user_frame_loop rest
  end.

(** [user_frame(exc_type, exc_value, tb)]. *)
Definition user_frame (exc_type : option pyclass) (exc_value : exc_obj)
    (tb : pyobject) : result (option FrameInfo) :=
  if negb (inspect_istraceback tb)
  then Raise ValueError "could not retrieve frame: argument not a traceback"
  else Ok (user_frame_loop (rev (inspect_getinnerframes tb))).

Definition soft_errors : list pyclass :=
  [ ReframeError; ConnectionError; FileExistsError; FileNotFoundError;
    IsADirectoryError; KeyboardInterrupt; NotADirectoryError;
    PermissionError; TimeoutError ].

(** [is_severe(exc_type, exc_value, tb)]. *)
Definition is_severe (exc_type : option pyclass) (exc_value : exc_obj)
    (tb : pyobject) : result bool :=
  if isinstance_any exc_value soft_errors then Ok false
  else
    let type_error := isinstance exc_value TypeError in
    let value_error := isinstance exc_value ValueError in
    frame ← user_frame exc_type exc_value tb;
    if (type_error || value_error) && is_Some_b frame then Ok false
    else Ok true.

(** [type(e.__cause__).__name__] for an object of the store [h]. *)
Definition cause_type_name (h : gmap nat exc_obj) (e : exc_obj)
  : result string :=
  match __cause__ e with
  | None => Ok "NoneType"
  | Some c =>
      match h !! c with
      | Some cause => Ok (__name__ (ob_type cause))
      | None => Raise SystemError "reference to an object not in the store"
      end
  end.

(** [''.join(frame.code_context)]; a frame without source lines has
    [None] there, which [join] rejects. *)
Definition join_context (ctx : option (list string)) : result string :=
  match ctx with
  | Some ls => Ok (String.concat "" ls)
  | None => Raise TypeError "can only join an iterable"
  end.

(** [what(exc_type, exc_value, tb)]; [depth] and [h] are those of the
    calls to [str]. *)
Definition what (depth : nat) (h : gmap nat exc_obj)
    (exc_type : option pyclass) (exc_value : exc_obj) (tb : pyobject)
  : result string :=
  match exc_type with
  | None => Ok ""
  | Some ty =>
      let reason := decamelize (__name__ ty) " " in
      frame ← user_frame exc_type exc_value tb;
      let user_type_error :=
        if isinstance exc_value TypeError then frame else None in
      let user_value_error :=
        if isinstance exc_value ValueError then frame else None in
      if isinstance exc_value KeyboardInterrupt then
        Ok "cancelled by user"
      else if isinstance exc_value AbortTaskError then
        n ← cause_type_name h exc_value;
        Ok ("aborted due to " +:+ n)
      else
        match py_or user_type_error user_value_error with
        | Some frame =>
            let relpath := os_path_relpath (filename frame) os_curdir in
            source ← join_context (code_context frame);
            s ← py_str depth h exc_value;
            Ok (reason +:+ ": " +:+ relpath +:+ ":" +:+
                str_int (lineno frame) +:+ ": " +:+ s +:+ nl +:+ source)
        | None =>
            s ← py_str depth h exc_value;
            if truthy s then Ok (reason +:+ ": " +:+ s) else Ok reason
        end
  end.

(** *** The formatter of [reframe.core.warnings] *)

(** What [_format_warning] takes from outside the module: the formatter it
    replaced ([warnings.formatwarning] as it was), the lines of a file as
    [open(filename)] followed by [readlines()] gives them or the error of
    the attempt, the truth value of
    [rt.runtime().get_option('general/0/colorize')] or the error raised on
    the way to it, and [color.colorize(message, color.YELLOW)]. *)
Context (_format_warning_orig :
           string -> pyclass -> string -> Z -> option string -> string)
        (readlines : string -> result (list string))
        (colorize_option : result bool)
        (colorize_yellow : string -> string).

Definition no_line_information : string := "<no line information>".

(** [_format_warning(message, category, filename, lineno, line=None)]. *)
Definition _format_warning (message : string) (category : pyclass)
    (filename : string) (lineno : Z) (line : option string)
  : result string :=
  if negb (bool_decide (category = warnings_ReframeDeprecationWarning))
  then Ok (_format_warning_orig message category filename lineno line)
  else
    line ← match line with
           | Some l => Ok l
           | None =>
               lines ← readlines filename;
               match py_getitem lines (lineno - 1) with
               | Some l => Ok l
               | None => Ok no_line_information
               end
           end;
    let filename := os_path_relpath filename os_curdir in
    let message :=
      filename +:+ ":" +:+ str_int lineno +:+ ": WARNING: " +:+ message +:+
      nl +:+ line +:+ nl in
    match colorize_option with
    | Ok true => Ok (colorize_yellow message)
    | Ok false => Ok message
    | Raise cls msg =>
        if issubclass cls ReframeFatalError then Ok message
        else Raise cls msg
    | DepthExceeded => DepthExceeded
    end.

(** The text [_format_warning] builds before colouring it. *)
Definition warning_text (message filename : string) (lineno : Z)
    (line : string) : string :=
  os_path_relpath filename os_curdir +:+ ":" +:+ str_int lineno +:+
  ": WARNING: " +:+ message +:+ nl +:+ line +:+ nl.

(** The header of the message of a timed-out command. *)
Definition timeout_header (cmd : string) (seconds : Z) : string :=
  "command '" +:+ cmd +:+ "' timed out after " +:+ str_int seconds +:+ "s:".

(** The lines after the header in the message of a spawned process. *)
Definition output_sections (out err : string) : list string :=
  ["=== STDOUT ==="] ++ (if truthy out then [out] else [])
  ++ ["=== STDERR ==="] ++ (if truthy err then [err] else []).

(** ** Specification-side vocabulary *)

(** Subclassing as the language defines it: the reflexive and transitive
    closure of [__bases__]. *)
Inductive subclass_of : pyclass -> pyclass -> Prop :=
  | subclass_refl c : subclass_of c c
  | subclass_step c b a :
      In b (__bases__ c) -> subclass_of b a -> subclass_of c a.

(** The recoverable operating-system conditions, in the order the
    specification lists them. *)
Definition os_conditions : list pyclass :=
  [ ConnectionError; FileExistsError; FileNotFoundError; IsADirectoryError;
    KeyboardInterrupt; PermissionError; NotADirectoryError; TimeoutError ].

(** The sub-kinds of the soft category the specification names. *)
Definition soft_kinds : list pyclass :=
  [ ConfigError; LoggingError; EnvironError; SanityError; PerformanceError;
    PipelineError; StatisticsError; BuildSystemError; ContainerError;
    BuildError; SpawnedProcessError; SpawnedProcessTimeout;
    JobSchedulerError; JobError; JobBlockedError; JobNotStartedError;
    DependencyError; NameConflictError; RegressionTestLoadError;
    ReframeSyntaxError; TaskExit; TaskDependencyError; AbortTaskError;
    ReframeForceExitError ].

(** The cause chain that starts at [e] in the store [h], when it ends. *)
Inductive cause_chain (h : gmap nat exc_obj)
  : exc_obj -> list exc_obj -> Prop :=
  | chain_end e : __cause__ e = None -> cause_chain h e [e]
  | chain_step e c cause l :
      __cause__ e = Some c -> h !! c = Some cause ->
      cause_chain h cause l -> cause_chain h e (e :: l).

(** The object reached after following [__cause__] [n] times. *)
Fixpoint nth_cause (n : nat) (h : gmap nat exc_obj) (e : exc_obj)
  : option exc_obj :=
  match n with
  | O => Some e
  | S k =>
      match __cause__ e with
      | Some c =>
          match h !! c with
          | Some cause => nth_cause k h cause
          | None => None
          end
      | None => None
      end
  end.

(** The rendering the specification gives for a chain: the own message,
    then a colon, a space and the rendering of the cause when there is one.
    An object that is not a framework error ends it with its built-in
    string. *)
Fixpoint render_chain (l : list exc_obj) : string :=
  match l with
  | [] => ""
  | e :: rest =>
      if isinstance e ReframeBaseError then
        match rest with
        | [] => or_empty (_message e)
        | _ :: _ => or_empty (_message e) +:+ ": " +:+ render_chain rest
        end
      else base_str e
  end.

(** Render rejects its input: at some depth it raises an error of its own
    instead of descending further. *)
Definition rejects (h : gmap nat exc_obj) (e : exc_obj) : Prop :=
  exists d cls msg, py_str d h e = Raise cls msg.

(** The message of a spawned-process failure as the specification words
    it: the header, a STDOUT section present only for a non-empty stdout,
    and a STDERR section whose title is always present. *)
Definition spec_spawned_message (command stdout stderr : string)
    (exitcode : option Z) : string :=
  String.concat nl
    (["command '" +:+ command +:+ "' failed with exit code " +:+
      str_opt_int exitcode +:+ ":"]
     ++ (if truthy stdout then ["=== STDOUT ==="; stdout] else [])
     ++ ["=== STDERR ==="]
     ++ (if truthy stderr then [stderr] else [])).

(** All the frames of a list belong to the framework. *)
Definition inside_all : list FrameInfo -> Prop :=
  Forall (fun g => outside_reframe g = false).

Definition not_a_traceback : string :=
  "could not retrieve frame: argument not a traceback".

Definition own_message (e : exc_obj) : string := or_empty (_message e).

Definition is_reframe (e : exc_obj) : Prop :=
  isinstance e ReframeBaseError = true.

Definition spawned_header (command : string) (exitcode : option Z)
  : string :=
  "command '" +:+ command +:+ "' failed with exit code " +:+
  str_opt_int exitcode +:+ ":".

Definition framework_frames : list stack_entry -> Prop :=
  Forall (fun s => leaves_framework s = false).

(** One more step of inheritance leaves the ancestors found at
    [hierarchy_depth] unchanged. *)
Definition closed_under_bases (c : pyclass) : bool :=
  forallb (fun b =>
    forallb (fun a => bool_decide (a ∈ ancestors hierarchy_depth c))
            (ancestors hierarchy_depth b))
    (__bases__ c).

(** ** Properties of the class hierarchy *)

Lemma all_classes_complete c : In c all_classes.
Proof. destruct c; vm_compute; tauto. Qed.

Lemma every_class_is_an_exception c : issubclass c BaseException = true.
Proof. destruct c; vm_compute; reflexivity. Qed.

Lemma ancestors_sound d c a : In a (ancestors d c) -> subclass_of c a.
Proof.
  revert c. induction d as [|d IH]; intros c; simpl.
  - intros [->|[]]. constructor.
  - intros [->|H]; [constructor|].
    apply in_flat_map in H as (b & Hb & Ha).
    econstructor; eauto.
Qed.

Lemma hierarchy_depth_suffices c : closed_under_bases c = true.
Proof. destruct c; vm_compute; reflexivity. Qed.

Lemma issubclass_correct c a : issubclass c a = true <-> subclass_of c a.
Proof.
  unfold issubclass. rewrite bool_decide_eq_true, list_elem_of_In.
  split; [apply ancestors_sound|].
  induction 1 as [c|c b a Hb _ IH].
  - simpl. auto.
  - pose proof (hierarchy_depth_suffices c) as Hc.
    unfold closed_under_bases in Hc.
    rewrite forallb_forall in Hc. specialize (Hc b Hb).
    rewrite forallb_forall in Hc. specialize (Hc a IH).
    rewrite bool_decide_eq_true, list_elem_of_In in Hc. exact Hc.
Qed.

Lemma soft_kinds_derive_from_ReframeError :
  Forall (fun k => issubclass k ReframeError = true) soft_kinds.
Proof. repeat constructor. Qed.

(** No class is at once a type or value error outside the soft category
    and one of the operating-system conditions of [soft_errors]. *)
Lemma type_value_not_os_condition c :
  issubclass c TypeError = true \/ issubclass c ValueError = true ->
  issubclass c ReframeError = false ->
  issubclass_any c soft_errors = false.
Proof.
  destruct c; vm_compute; intros [H|H] H'; congruence.
Qed.

(** ** The stack walker and the severity classifier *)

Lemma loop_skips_framework l1 l2 :
  inside_all l1 -> user_frame_loop (l1 ++ l2) = user_frame_loop l2.
Proof.
  unfold inside_all.
  induction 1 as [|g l1 Hg _ IH]; simpl; [reflexivity|].
  rewrite Hg. exact IH.
Qed.

Lemma loop_all_framework l : inside_all l -> user_frame_loop l = None.
Proof.
  intros H. rewrite <- (app_nil_r l). now rewrite loop_skips_framework.
Qed.

Lemma loop_result l :
  match user_frame_loop l with
  | Some f =>
      exists l1 l2, l = l1 ++ f :: l2 /\ inside_all l1 /\ outside_reframe f = true
  | None => inside_all l
  end.
Proof.
  unfold inside_all.
  induction l as [|g l IH]; simpl; [constructor|].
  destruct (outside_reframe g) eqn:Hg.
  - exists [], l. auto.
  - destruct (user_frame_loop l) as [f|].
    + destruct IH as (l1 & l2 & -> & H1 & Hf).
      exists (g :: l1), l2. auto.
    + constructor; assumption.
Qed.

Lemma inside_all_rev l : inside_all l -> inside_all (rev l).
Proof.
  unfold inside_all. rewrite !List.Forall_forall.
  intros H x Hx. apply H, in_rev, Hx.
Qed.

Lemma user_frame_traceback exc_type exc_value frames :
  user_frame exc_type exc_value (PyTraceback frames)
  = Ok (user_frame_loop (rev frames)).
Proof. reflexivity. Qed.

Lemma user_frame_invalid exc_type exc_value tb :
  inspect_istraceback tb = false ->
  user_frame exc_type exc_value tb = Raise ValueError not_a_traceback.
Proof. intros H. unfold user_frame. now rewrite H. Qed.

Lemma user_frame_found exc_type exc_value tb f :
  user_frame exc_type exc_value tb = Ok (Some f) ->
  exists outer inner,
    tb = PyTraceback (outer ++ f :: inner) /\
    outside_reframe f = true /\ inside_all inner.
Proof.
  destruct tb as [| | |frames]; try discriminate.
  rewrite user_frame_traceback. intros [= H].
  pose proof (loop_result (rev frames)) as R. rewrite H in R.
  destruct R as (l1 & l2 & E & H1 & Hf).
  exists (rev l2), (rev l1). split; [|split; [exact Hf|]].
  - f_equal. rewrite <- (rev_involutive frames), E.
    rewrite rev_app_distr. simpl. now rewrite <- app_assoc.
  - now apply inside_all_rev.
Qed.

(** C3.  The stack walker goes through the frames of a traceback from the
    innermost to the outermost and returns the first one outside the
    framework: for a trace whose frames after [f] (the inner ones) are all
    framework frames and where [f] is not, the result is [f]; for a trace
    of framework frames only the result is none; every trace is of one of
    these two shapes; and an argument that is not a traceback is refused
    with a ValueError. *)
Theorem user_frame_innermost_outside
    (exc_type : option pyclass) (exc_value : exc_obj) :
  (forall outer f inner,
      outside_reframe f = true -> inside_all inner ->
      user_frame exc_type exc_value (PyTraceback (outer ++ f :: inner))
      = Ok (Some f))
  /\ (forall frames,
      inside_all frames ->
      user_frame exc_type exc_value (PyTraceback frames) = Ok None)
  /\ (forall frames,
      inside_all frames \/
      exists outer f inner,
        frames = outer ++ f :: inner /\
        outside_reframe f = true /\ inside_all inner)
  /\ (forall tb,
      inspect_istraceback tb = false ->
      user_frame exc_type exc_value tb = Raise ValueError not_a_traceback).
Proof.
  split; [|split; [|split]].
  - intros outer f inner Hf Hin. rewrite user_frame_traceback.
    rewrite rev_app_distr. simpl. rewrite <- app_assoc.
    rewrite loop_skips_framework by now apply inside_all_rev.
    simpl. now rewrite Hf.
  - intros frames H. rewrite user_frame_traceback.
    now rewrite loop_all_framework by now apply inside_all_rev.
  - intros frames.
    destruct (user_frame_loop (rev frames)) as [f|] eqn:E.
    + right.
      destruct (user_frame_found exc_type exc_value (PyTraceback frames) f)
        as (outer & inner & [= ->] & Hf & Hin).
      { now rewrite user_frame_traceback, E. }
      exists outer, f, inner. auto.
    + left. pose proof (loop_result (rev frames)) as R. rewrite E in R.
      rewrite <- (rev_involutive frames). now apply inside_all_rev.
  - intros tb. apply user_frame_invalid.
Qed.

(** C1.  For a type or value error that is not of the soft category, the
    classifier answers not severe exactly when the stack walker finds a
    frame outside the framework for it (a frame of the trace with only
    framework frames further in); with a trace of framework frames only,
    the same error is severe. *)
Theorem type_value_error_severity
    (exc_type : option pyclass) (exc_value : exc_obj) :
  isinstance exc_value TypeError = true \/
  isinstance exc_value ValueError = true ->
  isinstance exc_value ReframeError = false ->
  (forall tb,
      is_severe exc_type exc_value tb = Ok false <->
      exists f, user_frame exc_type exc_value tb = Ok (Some f))
  /\ (forall outer f inner,
      outside_reframe f = true -> inside_all inner ->
      is_severe exc_type exc_value (PyTraceback (outer ++ f :: inner))
      = Ok false)
  /\ (forall frames,
      inside_all frames ->
      is_severe exc_type exc_value (PyTraceback frames) = Ok true).
Proof.
  intros Hty Hsoft.
  pose proof (type_value_not_os_condition _ Hty Hsoft) as Hnot.
  assert (Hor : isinstance exc_value TypeError
                || isinstance exc_value ValueError = true).
  { destruct Hty as [->| ->]; [reflexivity|apply orb_true_r]. }
  assert (Hsev : forall tb,
    is_severe exc_type exc_value tb =
    (frame ← user_frame exc_type exc_value tb;
     if is_Some_b frame then Ok false else Ok true)).
  { intros tb. unfold is_severe, isinstance_any.
    rewrite Hnot, Hor. reflexivity. }
  split; [|split].
  - intros tb. rewrite Hsev.
    destruct (user_frame exc_type exc_value tb) as [[f|]| |]; simpl;
      split; try discriminate; eauto;
      intros [f' H]; discriminate.
  - intros outer f inner Hf Hin. rewrite Hsev, user_frame_traceback.
    rewrite rev_app_distr. simpl. rewrite <- app_assoc.
    rewrite loop_skips_framework by now apply inside_all_rev.
    simpl. now rewrite Hf.
  - intros frames H. rewrite Hsev, user_frame_traceback.
    now rewrite loop_all_framework by now apply inside_all_rev.
Qed.

(** C4.  An instance of the soft category, or of one of the listed
    operating-system conditions, is not severe whatever is passed as its
    stack context, a traceback or not; and every sub-kind the
    specification names belongs to the soft category. *)
Theorem soft_and_os_errors_not_severe
    (exc_type : option pyclass) (exc_value : exc_obj) (tb : pyobject) :
  isinstance exc_value ReframeError = true \/
  isinstance_any exc_value os_conditions = true ->
  is_severe exc_type exc_value tb = Ok false
  /\ Forall (fun k => issubclass k ReframeError = true) soft_kinds.
Proof.
  intros H. split; [|apply soft_kinds_derive_from_ReframeError].
  unfold is_severe.
  assert (isinstance_any exc_value soft_errors = true) as ->;
    [|reflexivity].
  unfold isinstance_any, issubclass_any, isinstance, soft_errors,
    os_conditions in *.
  simpl in *. destruct H as [->|H]; [reflexivity|].
  repeat match type of H with
         | (_ || _) = true => apply orb_true_iff in H as [H|H]
         end;
    try (rewrite H; rewrite ?orb_true_r; reflexivity);
    discriminate.
Qed.

(** C10.  The classifier calls the stack walker for every error outside
    its soft list, whether or not the verdict depends on it: for an error
    that is neither of the soft category nor one of the listed
    operating-system conditions, a third argument that is not a traceback
    makes the call raise the ValueError of the stack walker. *)
Theorem is_severe_needs_traceback
    (exc_type : option pyclass) (exc_value : exc_obj) (tb : pyobject) :
  isinstance exc_value ReframeError = false ->
  isinstance_any exc_value os_conditions = false ->
  inspect_istraceback tb = false ->
  is_severe exc_type exc_value tb = Raise ValueError not_a_traceback.
Proof.
  intros Hs Ho Htb. unfold is_severe.
  assert (isinstance_any exc_value soft_errors = false) as ->.
  { unfold isinstance_any, issubclass_any, isinstance, soft_errors,
      os_conditions in *.
    simpl in *. rewrite Hs. simpl.
    repeat match type of Ho with
           | (_ || _) = false => apply orb_false_iff in Ho as [?H Ho]
           end.
    repeat match goal with
           | H : issubclass _ _ = false |- _ => rewrite H; clear H
           end.
    reflexivity. }
  rewrite user_frame_invalid by exact Htb. reflexivity.
Qed.

(** Everything else is severe: an error outside the soft list that is
    neither a type nor a value error, whatever its traceback holds. *)
Lemma is_severe_otherwise exc_type exc_value frames :
  isinstance_any exc_value soft_errors = false ->
  isinstance exc_value TypeError = false ->
  isinstance exc_value ValueError = false ->
  is_severe exc_type exc_value (PyTraceback frames) = Ok true.
Proof.
  intros Hs Ht Hv. unfold is_severe.
  rewrite Hs, Ht, Hv, user_frame_traceback. reflexivity.
Qed.

(** ** The cause-chain formatter *)

Lemma py_str_reframe d h e :
  is_reframe e ->
  py_str (S d) h e = ReframeBaseError_str (py_str d h) h e.
Proof. intros H. simpl. now rewrite H. Qed.

Lemma cause_chain_nonempty h e l : cause_chain h e l -> l <> [].
Proof. destruct 1; discriminate. Qed.

(** With a depth of at least the length of the chain, [str] returns the
    rendering of the chain. *)
Lemma py_str_chain h e l :
  cause_chain h e l ->
  forall d, (length l <= d)%nat -> py_str d h e = Ok (render_chain l).
Proof.
  induction 1 as [e Hc|e c cause l Hc Hl Hch IH]; intros d Hd.
  - destruct d as [|d]; [simpl in Hd; lia|]. simpl.
    destruct (isinstance e ReframeBaseError); [|reflexivity].
    unfold ReframeBaseError_str. now rewrite Hc.
  - destruct d as [|d]; [simpl in Hd; lia|]. simpl in Hd. simpl.
    destruct (isinstance e ReframeBaseError); [|reflexivity].
    unfold ReframeBaseError_str. rewrite Hc, Hl.
    rewrite IH by lia. simpl.
    pose proof (cause_chain_nonempty _ _ _ Hch).
    destruct l; [congruence|reflexivity].
Qed.

Lemma render_chain_reframe l :
  Forall is_reframe l ->
  render_chain l = String.concat ": " (map own_message l).
Proof.
  induction 1 as [|e l He _ IH]; [reflexivity|].
  simpl. rewrite He. destruct l as [|e' l]; [reflexivity|].
  rewrite IH. reflexivity.
Qed.

(** A chain that never ends uses up any depth. *)
Lemma endless_chain_exceeds_depth h d :
  forall e,
    (forall n, exists e', nth_cause n h e = Some e' /\ is_reframe e') ->
    py_str d h e = DepthExceeded.
Proof.
  induction d as [|d IH]; intros e H; [reflexivity|].
  destruct (H O) as (e0 & [= <-] & He).
  rewrite py_str_reframe by exact He.
  destruct (H 1%nat) as (e1 & H1 & _). simpl in H1.
  unfold ReframeBaseError_str.
  destruct (__cause__ e) as [c|] eqn:Hcause; [|discriminate].
  destruct (h !! c) as [cause|] eqn:Hc; [|discriminate].
  rewrite IH; [reflexivity|].
  intros n. destruct (H (S n)) as (e' & Hn & He').
  simpl in Hn. rewrite Hcause, Hc in Hn. eauto.
Qed.

Lemma self_cause_endless h a e :
  h !! a = Some e -> __cause__ e = Some a -> is_reframe e ->
  forall n, exists e', nth_cause n h e = Some e' /\ is_reframe e'.
Proof.
  intros Ha Hc He n. exists e. split; [|exact He].
  induction n as [|n IH]; [reflexivity|].
  simpl. now rewrite Hc, Ha.
Qed.

(** C2.  Rendering a framework error gives its own message, or the empty
    string when it has none, followed, when it has a cause, by a colon, a
    space and the rendering of the cause; this goes on along the whole
    chain, however long, once the depth allowed covers its length; an error
    with neither message nor cause renders as the empty string. *)
Theorem render_composes_cause_chain (h : gmap nat exc_obj) (e : exc_obj) :
  is_reframe e ->
  (__cause__ e = None ->
   forall d, py_str (S d) h e = Ok (own_message e))
  /\ (forall c cause s d,
      __cause__ e = Some c -> h !! c = Some cause ->
      py_str d h cause = Ok s ->
      py_str (S d) h e = Ok (own_message e +:+ ": " +:+ s))
  /\ (forall l d,
      cause_chain h e l -> (length l <= d)%nat ->
      py_str d h e = Ok (render_chain l))
  /\ (forall l d,
      cause_chain h e l -> Forall is_reframe l -> (length l <= d)%nat ->
      py_str d h e = Ok (String.concat ": " (map own_message l)))
  /\ (_message e = None -> __cause__ e = None ->
      forall d, py_str (S d) h e = Ok "").
Proof.
  intros He. repeat split.
  - intros Hc d. rewrite py_str_reframe by exact He.
    unfold ReframeBaseError_str. now rewrite Hc.
  - intros c cause s d Hc Hl Hs. rewrite py_str_reframe by exact He.
    unfold ReframeBaseError_str. now rewrite Hc, Hl, Hs.
  - intros l d Hch Hd. now apply py_str_chain.
  - intros l d Hch Hall Hd. rewrite <- render_chain_reframe by exact Hall.
    now apply py_str_chain.
  - intros Hm Hc d. rewrite py_str_reframe by exact He.
    unfold ReframeBaseError_str. now rewrite Hc, Hm.
Qed.

(** C7, as the code has it.  Rendering composes along a chain of any finite
    length, given a depth that covers it.  Nothing guards against a chain
    that comes back to itself: for an error that is its own cause, and for
    any chain of framework errors that never ends, rendering neither
    returns a string nor raises an error of its own at any depth; it goes
    on until the depth allowed is used up. *)
Theorem render_unguarded_against_cycles
    (h : gmap nat exc_obj) (e : exc_obj) :
  (forall l d,
      cause_chain h e l -> (length l <= d)%nat ->
      py_str d h e = Ok (render_chain l))
  /\ (forall a,
      h !! a = Some e -> __cause__ e = Some a -> is_reframe e ->
      (forall d, py_str d h e = DepthExceeded) /\ ~ rejects h e)
  /\ ((forall n, exists e', nth_cause n h e = Some e' /\ is_reframe e') ->
      forall d, py_str d h e = DepthExceeded).
Proof.
  split; [|split].
  - intros l d Hch Hd. now apply py_str_chain.
  - intros a Ha Hc He.
    assert (Hall : forall d, py_str d h e = DepthExceeded).
    { intros d. apply endless_chain_exceeds_depth.
      now apply (self_cause_endless h a). }
    split; [exact Hall|].
    intros (d & cls & msg & H). rewrite Hall in H. discriminate.
  - intros H d. now apply endless_chain_exceeds_depth.
Qed.

(** ** Synthesized messages *)

(** C5, as the code has it.  The message of a spawned-process failure is
    the header naming the command and the exit code, the STDOUT title, the
    stdout text when it is not empty, the STDERR title, and the stderr text
    when it is not empty, one per line: both titles are always present.  It
    is the message the specification words whenever stdout is not empty. *)
Theorem spawned_message_sections
    (cls : pyclass) (args : cmd_args) (stdout stderr : string)
    (exitcode : option Z) :
  _message (SpawnedProcessError_init cls args stdout stderr exitcode)
  = Some (String.concat nl
            ([spawned_header (command_of args) exitcode; "=== STDOUT ==="]
             ++ (if truthy stdout then [stdout] else [])
             ++ ["=== STDERR ==="]
             ++ (if truthy stderr then [stderr] else [])))
  /\ (truthy stdout = true ->
      _message (SpawnedProcessError_init cls args stdout stderr exitcode)
      = Some (spec_spawned_message (command_of args) stdout stderr
                exitcode)).
Proof.
  unfold SpawnedProcessError_init, spec_spawned_message, spawned_header.
  split.
  - destruct (truthy stdout), (truthy stderr); reflexivity.
  - intros ->. destruct (truthy stderr); reflexivity.
Qed.

(** C6.  The message of a build failure is made of its two paths and of
    nothing else: the stderr path comes first, after the words on the
    standard error, and the stdout path second, after the words on the
    standard output; the constructor takes no message.  Rendering the error
    gives that message. *)
Theorem build_error_message (stdout stderr : string) :
  _message (BuildError_init stdout stderr)
  = Some ("standard error can be found in `" +:+ stderr +:+
          "', standard output can be found in `" +:+ stdout +:+ "'")
  /\ (forall h d,
      py_str (S d) h (BuildError_init stdout stderr)
      = Ok ("standard error can be found in `" +:+ stderr +:+
            "', standard output can be found in `" +:+ stdout +:+ "'")).
Proof.
  split.
  - reflexivity.
  - intros h d. reflexivity.
Qed.

(** ** The description generator *)

(** C9.  For an instance of the user's cancellation (KeyboardInterrupt or a
    class derived from it), caught with its traceback, the description is
    exactly the fixed phrase: neither the decamelized class name nor the
    message of the error is part of it. *)
Theorem what_keyboard_interrupt
    (depth : nat) (h : gmap nat exc_obj) (ty : pyclass)
    (exc_value : exc_obj) (frames : list FrameInfo) :
  isinstance exc_value KeyboardInterrupt = true ->
  what depth h (Some ty) exc_value (PyTraceback frames)
  = Ok "cancelled by user".
Proof.
  intros H. unfold what. rewrite user_frame_traceback. simpl.
  now rewrite H.
Qed.

(** ** The deprecation emitter *)

Lemma unroll_stack_framework internal rest n :
  framework_frames internal ->
  unroll_stack (internal ++ rest) n
  = unroll_stack rest (n + length internal).
Proof.
  unfold framework_frames. intros H. revert n.
  induction H as [|s internal Hs _ IH]; intros n; simpl.
  - f_equal. lia.
  - rewrite Hs, IH. f_equal. lia.
Qed.

(** C8.  When the emitter is reached through any number of frames of the
    framework (its own frame included) from a caller outside it, the
    warning is issued at the level of that caller, the first frame outside
    the framework counting outwards, and at no frame of the framework; when
    every frame of the stack belongs to the framework, the level is the one
    that follows the outermost frame.  Both definitions of the function
    behave so. *)
Theorem deprecation_attributed_to_caller
    (message : string) (issued : list warning) :
  (forall internal u rest,
      framework_frames internal -> leaves_framework u = true ->
      let stack := internal ++ u :: rest in
      let level := S (length internal) in
      user_deprecation_warning stack message issued
      = issued ++ [mkWarning message ReframeDeprecationWarning level]
      /\ warnings_py.user_deprecation_warning stack message issued
        = issued ++ [mkWarning message warnings_ReframeDeprecationWarning
                       level]
      /\ frame_at_level stack level = Some u)
  /\ (forall stack,
      framework_frames stack ->
      let level := S (length stack) in
      user_deprecation_warning stack message issued
      = issued ++ [mkWarning message ReframeDeprecationWarning level]
      /\ warnings_py.user_deprecation_warning stack message issued
        = issued ++ [mkWarning message warnings_ReframeDeprecationWarning
                       level]
      /\ frame_at_level stack level = None
      /\ frame_at_level stack (length stack) = last stack).
Proof.
  split.
  - intros internal u rest Hin Hu stack level.
    assert (E : unroll_stack stack 1 = level).
    { unfold stack. rewrite unroll_stack_framework by exact Hin.
      simpl. now rewrite Hu. }
    unfold user_deprecation_warning, warnings_py.user_deprecation_warning,
      warnings_warn.
    rewrite E. repeat split.
    unfold level, stack. simpl.
    rewrite lookup_app_r by lia. now rewrite Nat.sub_diag.
  - intros stack Hin level.
    assert (E : unroll_stack stack 1 = level).
    { rewrite <- (app_nil_r stack) at 1.
      rewrite unroll_stack_framework by exact Hin. reflexivity. }
    unfold user_deprecation_warning, warnings_py.user_deprecation_warning,
      warnings_warn.
    rewrite E. repeat split.
    + unfold level. simpl. apply lookup_ge_None_2. lia.
    + destruct stack as [|s stack] using rev_ind; [reflexivity|].
      rewrite length_app. simpl. rewrite Nat.add_1_r. simpl.
      rewrite last_snoc. rewrite lookup_app_r by lia.
      now rewrite Nat.sub_diag.
Qed.

(** ** Further properties of the classifier and the description *)

Lemma abort_task_not_interrupt c :
  issubclass c AbortTaskError = true ->
  issubclass c KeyboardInterrupt = false.
Proof. destruct c; vm_compute; congruence. Qed.

Lemma type_value_not_interrupt_nor_abort c :
  issubclass c TypeError = true \/ issubclass c ValueError = true ->
  issubclass c KeyboardInterrupt = false
  /\ issubclass c AbortTaskError = false.
Proof. destruct c; vm_compute; intros [H|H]; split; congruence. Qed.

Lemma job_error_is_reframe c :
  issubclass c JobError = true -> issubclass c ReframeBaseError = true.
Proof. destruct c; vm_compute; congruence. Qed.

Lemma user_frame_loop_found outer f inner :
  outside_reframe f = true -> inside_all inner ->
  user_frame_loop (rev (outer ++ f :: inner)) = Some f.
Proof.
  intros Hf Hin. rewrite rev_app_distr. simpl. rewrite <- app_assoc.
  rewrite loop_skips_framework by now apply inside_all_rev.
  simpl. now rewrite Hf.
Qed.

(** X1.  An error that is neither in the soft list nor a type or value
    error is severe whatever its traceback holds: a frame outside the
    framework does not make it recoverable. *)
Theorem other_errors_severe
    (exc_type : option pyclass) (exc_value : exc_obj)
    (frames : list FrameInfo) :
  isinstance exc_value ReframeError = false ->
  isinstance_any exc_value os_conditions = false ->
  isinstance exc_value TypeError = false ->
  isinstance exc_value ValueError = false ->
  is_severe exc_type exc_value (PyTraceback frames) = Ok true.
Proof.
  intros Hs Ho Ht Hv. apply is_severe_otherwise; try assumption.
  unfold isinstance_any, issubclass_any, isinstance, soft_errors,
    os_conditions in *.
  simpl in *. rewrite Hs. simpl.
  repeat match type of Ho with
         | (_ || _) = false => apply orb_false_iff in Ho as [?H Ho]
         end.
  repeat match goal with
         | H : issubclass _ _ = false |- _ => rewrite H; clear H
         end.
  reflexivity.
Qed.

(** X2.  The description generator asks the stack walker for a frame
    before it looks at the error: given an exception type and a third
    argument that is not a traceback it raises the ValueError of the stack
    walker for every error, a user's interrupt included.  Without an
    exception type it returns the empty string and looks at nothing
    else. *)
Theorem what_needs_traceback
    (depth : nat) (h : gmap nat exc_obj) (exc_value : exc_obj)
    (tb : pyobject) :
  inspect_istraceback tb = false ->
  (forall ty,
      what depth h (Some ty) exc_value tb
      = Raise ValueError not_a_traceback)
  /\ what depth h None exc_value tb = Ok "".
Proof.
  intros Htb. split; [|reflexivity].
  intros ty. unfold what. now rewrite user_frame_invalid by exact Htb.
Qed.

(** X3.  An aborted task is described by the class of its immediate
    cause: the name of that class follows the words aborted due to, and an
    abort without a cause is described as due to NoneType.  The type
    passed, the message of the error and the frames play no part. *)
Theorem what_abort_task
    (depth : nat) (h : gmap nat exc_obj) (ty : pyclass)
    (exc_value : exc_obj) (frames : list FrameInfo) :
  isinstance exc_value AbortTaskError = true ->
  (__cause__ exc_value = None ->
   what depth h (Some ty) exc_value (PyTraceback frames)
   = Ok "aborted due to NoneType")
  /\ (forall c cause,
      __cause__ exc_value = Some c -> h !! c = Some cause ->
      what depth h (Some ty) exc_value (PyTraceback frames)
      = Ok ("aborted due to " +:+ __name__ (ob_type cause))).
Proof.
  intros Ha. pose proof (abort_task_not_interrupt _ Ha) as Hk.
  unfold isinstance in *. split.
  - intros Hc. unfold what, isinstance, cause_type_name.
    rewrite user_frame_traceback. simpl. now rewrite Hk, Ha, Hc.
  - intros c cause Hc Hl. unfold what, isinstance, cause_type_name.
    rewrite user_frame_traceback. simpl. now rewrite Hk, Ha, Hc, Hl.
Qed.

(** X4.  For an error that is neither an interrupt nor an aborted task,
    and that is not a type or value error with a frame outside the
    framework, the description is the decamelized name of the type passed,
    followed by a colon, a space and the rendering of the error when that
    rendering is not empty. *)
Theorem what_default_description
    (depth : nat) (h : gmap nat exc_obj) (ty : pyclass)
    (exc_value : exc_obj) (frames : list FrameInfo) (s : string) :
  isinstance exc_value KeyboardInterrupt = false ->
  isinstance exc_value AbortTaskError = false ->
  inside_all frames \/
  (isinstance exc_value TypeError = false /\
   isinstance exc_value ValueError = false) ->
  py_str depth h exc_value = Ok s ->
  what depth h (Some ty) exc_value (PyTraceback frames)
  = Ok (if truthy s then decamelize (__name__ ty) " " +:+ ": " +:+ s
        else decamelize (__name__ ty) " ").
Proof.
  intros Hk Ha Hcase Hs. unfold what.
  rewrite user_frame_traceback. simpl. rewrite Hk, Ha.
  assert (py_or
            (if isinstance exc_value TypeError
             then user_frame_loop (rev frames) else None)
            (if isinstance exc_value ValueError
             then user_frame_loop (rev frames) else None) = None) as ->.
  { destruct Hcase as [Hin|[-> ->]]; [|reflexivity].
    rewrite loop_all_framework by now apply inside_all_rev.
    now destruct (isinstance exc_value TypeError),
      (isinstance exc_value ValueError). }
  rewrite Hs. simpl. now destruct (truthy s).
Qed.

(** X5.  A type or value error with a frame outside the framework is
    described with that frame: the decamelized type name, the path of the
    frame's file relative to the working directory, its line number, the
    rendering of the error and, on the next line, the source lines of the
    frame.  The frame is the one the classifier relies on: unless the error
    belongs to the soft category, the classifier finds it not severe. *)
Theorem what_user_error_description
    (depth : nat) (h : gmap nat exc_obj) (ty : pyclass)
    (exc_value : exc_obj) (outer inner : list FrameInfo) (f : FrameInfo)
    (context : list string) (s : string) :
  isinstance exc_value TypeError = true \/
  isinstance exc_value ValueError = true ->
  outside_reframe f = true -> inside_all inner ->
  code_context f = Some context ->
  py_str depth h exc_value = Ok s ->
  what depth h (Some ty) exc_value (PyTraceback (outer ++ f :: inner))
  = Ok (decamelize (__name__ ty) " " +:+ ": " +:+
        os_path_relpath (filename f) os_curdir +:+ ":" +:+
        str_int (lineno f) +:+ ": " +:+ s +:+ nl +:+
        String.concat "" context)
  /\ (isinstance exc_value ReframeError = false ->
      is_severe (Some ty) exc_value (PyTraceback (outer ++ f :: inner))
      = Ok false).
Proof.
  intros Hty Hf Hin Hctx Hs.
  destruct (type_value_not_interrupt_nor_abort _ Hty) as [Hk Ha].
  split.
  - unfold what. rewrite user_frame_traceback. simpl.
    unfold isinstance in *. rewrite Hk, Ha.
    rewrite (user_frame_loop_found outer f inner Hf Hin).
    assert (py_or
              (if issubclass (ob_type exc_value) TypeError
               then Some f else None)
              (if issubclass (ob_type exc_value) ValueError
               then Some f else None) = Some f) as ->.
    { destruct Hty as [-> | ->]; [reflexivity|].
      now destruct (issubclass (ob_type exc_value) TypeError). }
    unfold join_context. rewrite Hctx. simpl.
    fold (isinstance exc_value ReframeBaseError).
    change (match depth with
            | O => DepthExceeded
            | S d =>
                if isinstance exc_value ReframeBaseError
                then ReframeBaseError_str (py_str d h) h exc_value
                else Ok (base_str exc_value)
            end) with (py_str depth h exc_value).
    rewrite Hs. reflexivity.
  - intros Hsoft.
    pose proof (type_value_not_os_condition _ Hty Hsoft) as Hnot.
    unfold is_severe, isinstance_any. rewrite Hnot.
    rewrite user_frame_traceback.
    rewrite (user_frame_loop_found outer f inner Hf Hin). simpl.
    destruct Hty as [-> | ->]; [reflexivity|].
    now rewrite orb_true_r.
Qed.

(** X6.  When the frame found for a type or value error carries no source
    lines, the description generator does not return: joining the missing
    lines raises a TypeError, before the error is rendered. *)
Theorem what_user_error_without_source
    (depth : nat) (h : gmap nat exc_obj) (ty : pyclass)
    (exc_value : exc_obj) (outer inner : list FrameInfo) (f : FrameInfo) :
  isinstance exc_value TypeError = true \/
  isinstance exc_value ValueError = true ->
  outside_reframe f = true -> inside_all inner ->
  code_context f = None ->
  what depth h (Some ty) exc_value (PyTraceback (outer ++ f :: inner))
  = Raise TypeError "can only join an iterable".
Proof.
  intros Hty Hf Hin Hctx.
  destruct (type_value_not_interrupt_nor_abort _ Hty) as [Hk Ha].
  unfold what. rewrite user_frame_traceback. simpl.
  unfold isinstance in *. rewrite Hk, Ha.
  rewrite (user_frame_loop_found outer f inner Hf Hin).
  assert (py_or
            (if issubclass (ob_type exc_value) TypeError
             then Some f else None)
            (if issubclass (ob_type exc_value) ValueError
             then Some f else None) = Some f) as ->.
  { destruct Hty as [-> | ->]; [reflexivity|].
    now destruct (issubclass (ob_type exc_value) TypeError). }
  unfold join_context. now rewrite Hctx.
Qed.

(** ** Further properties of the formatter and of the constructors *)

(** X7.  Rendering follows the chain only through framework errors: a
    cause of another class contributes its own string and ends the
    rendering, so whatever caused that cause is not shown. *)
Theorem render_stops_at_foreign_cause
    (h : gmap nat exc_obj) (e cause : exc_obj) (c d : nat) :
  is_reframe e ->
  __cause__ e = Some c -> h !! c = Some cause ->
  isinstance cause ReframeBaseError = false ->
  py_str (S (S d)) h e = Ok (own_message e +:+ ": " +:+ base_str cause).
Proof.
  intros He Hc Hl Hn. rewrite py_str_reframe by exact He.
  unfold ReframeBaseError_str. rewrite Hc, Hl. simpl. now rewrite Hn.
Qed.

(** X8.  A timed-out command keeps what it was given: the command (a list
    of words joined by spaces), both outputs and the timeout; it has no
    exit code.  Its message is the header naming the timeout followed by
    the same sections as for a failed command, the message of the base
    constructor being replaced.  It is never severe. *)
Theorem spawned_timeout_fields
    (args : cmd_args) (out err : string) (seconds : Z) :
  message (SpawnedProcessTimeout_init args out err seconds)
  = Some (String.concat nl
            (timeout_header (command_of args) seconds
             :: output_sections out err))
  /\ command (SpawnedProcessTimeout_init args out err seconds)
     = Some (command_of args)
  /\ stdout (SpawnedProcessTimeout_init args out err seconds) = Some out
  /\ stderr (SpawnedProcessTimeout_init args out err seconds) = Some err
  /\ exitcode (SpawnedProcessTimeout_init args out err seconds)
     = Some None
  /\ timeout (SpawnedProcessTimeout_init args out err seconds)
     = Some seconds
  /\ (forall exc_type tb,
      is_severe exc_type (SpawnedProcessTimeout_init args out err seconds)
        tb = Ok false).
Proof.
  repeat split.
  unfold SpawnedProcessTimeout_init, message, timeout_header,
    output_sections.
  destruct (truthy out), (truthy err); reflexivity.
Qed.

Lemma append_empty_r (s : string) : s +:+ "" = s.
Proof.
  induction s as [|a s IH]; [reflexivity|].
  change (String a (s +:+ "") = String a s). now rewrite IH.
Qed.

Lemma append_assoc (s t u : string) : (s +:+ t) +:+ u = s +:+ t +:+ u.
Proof.
  induction s as [|a s IH]; [reflexivity|].
  change (String a ((s +:+ t) +:+ u) = String a (s +:+ t +:+ u)).
  now rewrite IH.
Qed.

(** X9.  The message of a job error is the job identifier between
    brackets, None when there is none, followed by a space and the message
    given unless that is missing or empty; rendering the error gives this
    message and the identifier can be read back. *)
Theorem job_error_message_format
    (cls : pyclass) (msg id : option string)
    (h : gmap nat exc_obj) (d : nat) :
  issubclass cls JobError = true ->
  py_str (S d) h (JobError_init cls msg id)
  = Ok ("[jobid=" +:+ str_opt id +:+ "]" +:+
        match msg with
        | Some (String a m) => " " +:+ String a m
        | _ => ""
        end)
  /\ jobid (JobError_init cls msg id) = Some id.
Proof.
  intros Hc. split; [|reflexivity].
  pose proof (job_error_is_reframe _ Hc) as Hr.
  rewrite py_str_reframe by exact Hr.
  unfold ReframeBaseError_str, JobError_init. simpl. f_equal.
  destruct msg as [[|a m]|]; simpl.
  - now rewrite append_empty_r.
  - now rewrite !append_assoc.
  - now rewrite append_empty_r.
Qed.

(** ** Further properties of the deprecation warnings *)

Lemma prefix_iff p s :
  String.prefix p s = true <-> exists t, s = p +:+ t.
Proof.
  revert s. induction p as [|a p IH]; intros s.
  - split; [intros _; now exists s|intros _; now destruct s].
  - destruct s as [|b s]; simpl.
    + split; [discriminate|intros [t Ht]; discriminate].
    + destruct (Ascii.ascii_dec a b) as [->|Hab].
      * rewrite IH. split; intros [t Ht]; exists t.
        -- change (String b s = String b (p +:+ t)). now rewrite Ht.
        -- change (String b s = String b (p +:+ t)) in Ht. congruence.
      * split; [discriminate|].
        intros [t Ht].
        change (String b s = String a (p +:+ t)) in Ht. congruence.
Qed.

(** X10.  A frame counts as one of the framework exactly when its module
    has a name that starts with the letters reframe, whatever follows
    them; a frame without a module does not.  So a caller in a module such
    as reframe_checks is passed over like the framework's own frames, and
    the warning goes to the frame after it. *)
Theorem framework_frames_by_prefix
    (message : string) (issued : list warning) :
  (forall s,
      leaves_framework s = false <->
      exists rest, s_module s = Some ("reframe" +:+ rest))
  /\ (forall suffixes u rest,
      leaves_framework u = true ->
      user_deprecation_warning
        (map (fun x => mkStackEntry (Some ("reframe" +:+ x)) "" 0)
             suffixes ++ u :: rest) message issued
      = issued ++ [mkWarning message ReframeDeprecationWarning
                     (S (length suffixes))]).
Proof.
  assert (Hiff : forall s,
    leaves_framework s = false <->
    exists rest, s_module s = Some ("reframe" +:+ rest)).
  { intros s. unfold leaves_framework, startswith.
    destruct (s_module s) as [name|].
    - rewrite negb_false_iff, prefix_iff.
      split; intros [t Ht]; exists t; congruence.
    - split; [discriminate|intros [t Ht]; discriminate]. }
  split; [exact Hiff|].
  intros suffixes u rest Hu.
  unfold user_deprecation_warning, warnings_warn.
  rewrite unroll_stack_framework.
  - simpl. rewrite Hu. now rewrite length_map.
  - unfold framework_frames. apply List.Forall_forall.
    intros s Hs. apply in_map_iff in Hs as (x & <- & _).
    apply Hiff. now exists x.
Qed.

Lemma py_getitem_in_range {A : Type} (l : list A) (i : Z) :
  (0 <= i < Z.of_nat (length l))%Z -> py_getitem l i = l !! Z.to_nat i.
Proof.
  intros [H0 H1]. unfold py_getitem.
  apply Z.leb_le in H0. apply Z.ltb_lt in H1. now rewrite H0, H1.
Qed.

Lemma py_getitem_past_end {A : Type} (l : list A) (i : Z) :
  (Z.of_nat (length l) <= i)%Z -> py_getitem l i = None.
Proof.
  intros H. unfold py_getitem.
  assert ((i <? Z.of_nat (length l))%Z = false) as -> by now apply Z.ltb_ge.
  rewrite andb_false_r.
  assert ((i <? 0)%Z = false) as -> by (apply Z.ltb_ge; lia).
  now rewrite andb_false_r.
Qed.

Lemma py_getitem_last {A : Type} (l : list A) (x : A) :
  py_getitem (l ++ [x]) (-1) = Some x.
Proof.
  unfold py_getitem. rewrite length_app. simpl.
  assert ((- Z.of_nat (length l + 1) <=? -1)%Z = true) as ->
    by (apply Z.leb_le; lia).
  simpl.
  replace (Z.to_nat (Z.of_nat (length l + 1) + -1)) with (length l) by lia.
  rewrite lookup_app_r by lia. now rewrite Nat.sub_diag.
Qed.

(** X11.  Only warnings of the class [ReframeDeprecationWarning] that
    [reframe.core.warnings] declares get the formatting of the module:
    for any other category the replaced formatter is called with the same
    arguments, the file is not read and the run-time system is not asked.
    The class of the same name declared in [reframe.core.exceptions] is
    another category, so the warnings issued by the
    [user_deprecation_warning] of that module are formatted by the
    replaced formatter. *)
Theorem format_warning_delegates
    (filename : string) (lineno : Z) (line : option string) :
  (forall message category,
      category <> warnings_ReframeDeprecationWarning ->
      _format_warning message category filename lineno line
      = Ok (_format_warning_orig message category filename lineno line))
  /\ (forall stack message issued w,
      In w (user_deprecation_warning stack message issued) ->
      ~ In w issued ->
      _format_warning (w_message w) (w_category w) filename lineno line
      = Ok (_format_warning_orig message ReframeDeprecationWarning
              filename lineno line)).
Proof.
  assert (Hd : forall message category,
    category <> warnings_ReframeDeprecationWarning ->
    _format_warning message category filename lineno line
    = Ok (_format_warning_orig message category filename lineno line)).
  { intros message category Hne. unfold _format_warning.
    now rewrite bool_decide_eq_false_2 by exact Hne. }
  split; [exact Hd|].
  intros stack message issued w Hw Hnew.
  unfold user_deprecation_warning, warnings_warn in Hw.
  apply in_app_or in Hw as [Hw|[<-|[]]]; [contradiction|].
  simpl. now apply Hd.
Qed.

(** X12.  For a warning of the module's class whose source line is given,
    the result is the text made of the relative file name, the line number,
    the word WARNING, the message and the line; no file is read.  The text
    is coloured when the option of the run-time system is on and left as it
    is when the option is off; when asking for the option raises a
    [ReframeFatalError] the text is returned uncoloured, and any other error
    raised there is raised by the formatter. *)
Theorem format_warning_given_line
    (message filename line : string) (lineno : Z) :
  (colorize_option = Ok true ->
   _format_warning message warnings_ReframeDeprecationWarning filename
     lineno (Some line)
   = Ok (colorize_yellow (warning_text message filename lineno line)))
  /\ (colorize_option = Ok false ->
      _format_warning message warnings_ReframeDeprecationWarning filename
        lineno (Some line)
      = Ok (warning_text message filename lineno line))
  /\ (forall cls msg,
      colorize_option = Raise cls msg ->
      issubclass cls ReframeFatalError = true ->
      _format_warning message warnings_ReframeDeprecationWarning filename
        lineno (Some line)
      = Ok (warning_text message filename lineno line))
  /\ (forall cls msg,
      colorize_option = Raise cls msg ->
      issubclass cls ReframeFatalError = false ->
      _format_warning message warnings_ReframeDeprecationWarning filename
        lineno (Some line)
      = Raise cls msg).
Proof.
  unfold _format_warning, warning_text. simpl.
  repeat split.
  - intros ->. reflexivity.
  - intros ->. reflexivity.
  - intros cls msg -> ->. reflexivity.
  - intros cls msg -> ->. reflexivity.
Qed.

(** X13.  For a warning of the module's class given without its source
    line, the line is read from the file: line [lineno] of the file when
    the file has that many lines, and the words no line information when it
    is shorter; with a line number of zero the index wraps around to the
    last line of the file.  An error in opening or reading the file is
    raised by the formatter. *)
Theorem format_warning_reads_line
    (message filename : string) (lineno : Z) :
  (forall lines l,
      readlines filename = Ok lines ->
      (1 <= lineno)%Z -> lines !! Z.to_nat (lineno - 1) = Some l ->
      _format_warning message warnings_ReframeDeprecationWarning filename
        lineno None
      = _format_warning message warnings_ReframeDeprecationWarning filename
          lineno (Some l))
  /\ (forall lines,
      readlines filename = Ok lines ->
      (Z.of_nat (length lines) < lineno)%Z ->
      _format_warning message warnings_ReframeDeprecationWarning filename
        lineno None
      = _format_warning message warnings_ReframeDeprecationWarning filename
          lineno (Some no_line_information))
  /\ (forall lines l,
      readlines filename = Ok (lines ++ [l]) -> lineno = 0%Z ->
      _format_warning message warnings_ReframeDeprecationWarning filename
        lineno None
      = _format_warning message warnings_ReframeDeprecationWarning filename
          lineno (Some l))
  /\ (forall cls msg,
      readlines filename = Raise cls msg ->
      _format_warning message warnings_ReframeDeprecationWarning filename
        lineno None
      = Raise cls msg).
Proof.
  unfold _format_warning. simpl. repeat split.
  - intros lines l Hr Hpos Hl. rewrite Hr. simpl.
    rewrite py_getitem_in_range, Hl; [reflexivity|].
    apply lookup_lt_Some in Hl. lia.
  - intros lines Hr Hlen. rewrite Hr. simpl.
    now rewrite py_getitem_past_end by lia.
  - intros lines l Hr ->. rewrite Hr. simpl.
    now rewrite py_getitem_last.
  - intros cls msg Hr. now rewrite Hr.
Qed.

End Reframe.


(** ** Concrete runs *)

Example pipeline_frame_inside :
  outside_reframe run_relpath run_sys_path0 pipeline_frame = false.
Proof. reflexivity. Qed.

Example check_frame_outside :
  outside_reframe run_relpath run_sys_path0 check_frame = true.
Proof. reflexivity. Qed.

Example user_frame_finds_check :
  user_frame run_relpath run_sys_path0 (Some TypeError)
    (builtin_exc TypeError "unsupported operand")
    (PyTraceback [executor_frame; check_frame; pipeline_frame])
  = Ok (Some check_frame).
Proof. reflexivity. Qed.

Example user_frame_framework_only :
  user_frame run_relpath run_sys_path0 (Some TypeError)
    (builtin_exc TypeError "unsupported operand")
    (PyTraceback [executor_frame; pipeline_frame])
  = Ok None.
Proof. reflexivity. Qed.

Example docstring_prints :
  py_str 2 docstring_store message_2
  = Ok "error message 2: error message 1".
Proof. vm_compute. reflexivity. Qed.

Example three_chain_prints :
  py_str 3 three_store three_top
  = Ok "could not start: bad site config: no such file".
Proof. vm_compute. reflexivity. Qed.

Example three_chain_needs_depth :
  py_str 2 three_store three_top = DepthExceeded.
Proof. vm_compute. reflexivity. Qed.

Example build_error_paths :
  py_str 1 ∅ (BuildError_init "out.txt" "err.txt")
  = Ok ("standard error can be found in `err.txt', " +:+
        "standard output can be found in `out.txt'").
Proof. vm_compute. reflexivity. Qed.

Example job_error_message :
  _message (JobError_init JobBlockedError (Some "blocked") (Some "4711"))
  = Some "[jobid=4711] blocked".
Proof. reflexivity. Qed.

Example what_user_type_error :
  what run_relpath run_sys_path0 utility_decamelize 1 ∅ (Some TypeError)
    (builtin_exc TypeError "unsupported operand")
    (PyTraceback [executor_frame; check_frame; pipeline_frame])
  = Ok ("type error: checks/hello.py:14: unsupported operand" +:+ nl +:+
        "        self.sanity_patterns = 3 + 'x'").
Proof. vm_compute. reflexivity. Qed.

(** ** Instances of the theorems *)

Lemma type_value_error_severity_run :
  is_severe run_relpath run_sys_path0 (Some TypeError) user_type_error
    (PyTraceback [executor_frame; check_frame; pipeline_frame]) = Ok false
  /\ is_severe run_relpath run_sys_path0 (Some TypeError) user_type_error
       (PyTraceback [executor_frame; pipeline_frame]) = Ok true.
Proof.
  destruct (type_value_error_severity run_relpath run_sys_path0
              (Some TypeError) user_type_error)
    as (_ & Hout & Hin).
  - left. reflexivity.
  - reflexivity.
  - split.
    + apply (Hout [executor_frame] check_frame [pipeline_frame]).
      * reflexivity.
      * repeat constructor.
    + apply Hin. repeat constructor.
Defined.

Lemma soft_and_os_errors_not_severe_run :
  is_severe run_relpath run_sys_path0 (Some JobBlockedError) blocked_job
    PyNone = Ok false
  /\ is_severe run_relpath run_sys_path0 (Some BrokenPipeError)
       (builtin_exc BrokenPipeError "[Errno 32] Broken pipe")
       (PyTraceback [executor_frame; pipeline_frame]) = Ok false.
Proof.
  split.
  - apply (soft_and_os_errors_not_severe run_relpath run_sys_path0
             (Some JobBlockedError) blocked_job PyNone).
    left. reflexivity.
  - apply (soft_and_os_errors_not_severe run_relpath run_sys_path0
             (Some BrokenPipeError)
             (builtin_exc BrokenPipeError "[Errno 32] Broken pipe")
             (PyTraceback [executor_frame; pipeline_frame])).
    right. reflexivity.
Defined.

Lemma is_severe_needs_traceback_run :
  is_severe run_relpath run_sys_path0 (Some ReframeFatalError) fatal_error
    PyNone = Raise ValueError not_a_traceback.
Proof.
  apply (is_severe_needs_traceback run_relpath run_sys_path0
           (Some ReframeFatalError) fatal_error PyNone);
    reflexivity.
Defined.

Lemma render_composes_cause_chain_run :
  py_str 2 docstring_store message_2
  = Ok (String.concat ": " (map own_message [message_2; message_1])).
Proof.
  destruct (render_composes_cause_chain docstring_store message_2)
    as (_ & _ & _ & H & _).
  - reflexivity.
  - apply H.
    + eapply chain_step.
      * reflexivity.
      * vm_compute. reflexivity.
      * apply chain_end. reflexivity.
    + repeat constructor.
    + simpl. lia.
Defined.

Lemma what_keyboard_interrupt_run :
  what run_relpath run_sys_path0 utility_decamelize 1 ∅
    (Some KeyboardInterrupt) interrupt
    (PyTraceback [executor_frame; check_frame])
  = Ok "cancelled by user".
Proof.
  apply (what_keyboard_interrupt run_relpath run_sys_path0
           utility_decamelize 1 ∅ KeyboardInterrupt interrupt
           [executor_frame; check_frame]).
  reflexivity.
Defined.

(** *** Where the code departs from the wording *)

(** The chain of [self_caused] comes back to it, and rendering it is not
    rejected at any depth: at the interpreter's usual limit of 1000 nested
    calls the depth is simply used up. *)
Lemma self_cause_not_rejected :
  (self_store !! 0%nat = Some self_caused
   /\ __cause__ self_caused = Some 0%nat)
  /\ ~ rejects self_store self_caused
  /\ py_str 1000 self_store self_caused = DepthExceeded.
Proof.
  assert (Hl : self_store !! 0%nat = Some self_caused)
    by (vm_compute; reflexivity).
  assert (Hall : forall d, py_str d self_store self_caused = DepthExceeded).
  { intros d. apply endless_chain_exceeds_depth.
    apply (self_cause_endless self_store 0%nat); [exact Hl| |];
      reflexivity. }
  split; [split; [exact Hl|reflexivity]|]. split.
  - intros (d & cls & msg & H). rewrite Hall in H. discriminate.
  - apply Hall.
Qed.

(** The spawned process of the specification's example: with an empty
    stdout the message still has the STDOUT title, which the wording of the
    specification leaves out. *)
Lemma spawned_stdout_title_kept :
  _message (SpawnedProcessError_init SpawnedProcessError (CmdStr "ls -l")
              "" "not found" (Some 2%Z))
  = Some ("command 'ls -l' failed with exit code 2:" +:+ nl +:+
          "=== STDOUT ===" +:+ nl +:+
          "=== STDERR ===" +:+ nl +:+ "not found")
  /\ spec_spawned_message "ls -l" "" "not found" (Some 2%Z)
     = "command 'ls -l' failed with exit code 2:" +:+ nl +:+
       "=== STDERR ===" +:+ nl +:+ "not found"
  /\ _message (SpawnedProcessError_init SpawnedProcessError
                 (CmdStr "ls -l") "" "not found" (Some 2%Z))
     <> Some (spec_spawned_message "ls -l" "" "not found" (Some 2%Z)).
Proof.
  split; [vm_compute; reflexivity|].
  split; [vm_compute; reflexivity|].
  vm_compute. discriminate.
Qed.

Example deprecation_at_user_check :
  user_deprecation_warning emitter_stack "use sanity_patterns" []
  = [mkWarning "use sanity_patterns" ReframeDeprecationWarning 4]
  /\ frame_at_level emitter_stack 4
     = Some (mkStackEntry (Some "hello")
               "/home/user/work/checks/hello.py" 9).
Proof. split; reflexivity. Qed.

(** *** Instances of the further properties *)

Lemma other_errors_severe_run :
  is_severe run_relpath run_sys_path0 (Some RuntimeError)
    check_runtime_error (PyTraceback [executor_frame; check_frame])
  = Ok true.
Proof.
  apply (other_errors_severe run_relpath run_sys_path0 (Some RuntimeError)
           check_runtime_error [executor_frame; check_frame]);
    reflexivity.
Defined.

Lemma what_needs_traceback_run :
  what run_relpath run_sys_path0 utility_decamelize 1 ∅
    (Some KeyboardInterrupt) interrupt PyNone
  = Raise ValueError not_a_traceback.
Proof.
  apply (what_needs_traceback run_relpath run_sys_path0 utility_decamelize
           1 ∅ interrupt PyNone).
  reflexivity.
Defined.

Lemma what_abort_task_run :
  what run_relpath run_sys_path0 utility_decamelize 1 abort_store
    (Some AbortTaskError) aborted_task (PyTraceback [pipeline_frame])
  = Ok "aborted due to KeyboardInterrupt".
Proof.
  destruct (what_abort_task run_relpath run_sys_path0 utility_decamelize
              1 abort_store AbortTaskError aborted_task [pipeline_frame])
    as [_ H].
  - reflexivity.
  - apply (H 7%nat interrupt).
    + reflexivity.
    + vm_compute. reflexivity.
Defined.

Lemma what_default_description_run :
  what run_relpath run_sys_path0 utility_decamelize 1 ∅
    (Some ReframeFatalError) fatal_error
    (PyTraceback [executor_frame; check_frame])
  = Ok "reframe fatal error: no runtime available".
Proof.
  apply (what_default_description run_relpath run_sys_path0
           utility_decamelize 1 ∅ ReframeFatalError fatal_error
           [executor_frame; check_frame] "no runtime available").
  - reflexivity.
  - reflexivity.
  - right. split; reflexivity.
  - reflexivity.
Defined.

Lemma what_user_error_description_run :
  what run_relpath run_sys_path0 utility_decamelize 1 ∅ (Some TypeError)
    user_type_error
    (PyTraceback [executor_frame; check_frame; pipeline_frame])
  = Ok ("type error: checks/hello.py:14: unsupported operand" +:+ nl +:+
        "        self.sanity_patterns = 3 + 'x'")
  /\ is_severe run_relpath run_sys_path0 (Some TypeError) user_type_error
       (PyTraceback [executor_frame; check_frame; pipeline_frame])
     = Ok false.
Proof.
  destruct (what_user_error_description run_relpath run_sys_path0
              utility_decamelize 1 ∅ TypeError user_type_error
              [executor_frame] [pipeline_frame] check_frame
              ["        self.sanity_patterns = 3 + 'x'"]
              "unsupported operand") as [Hw Hs].
  - left. reflexivity.
  - reflexivity.
  - repeat constructor.
  - reflexivity.
  - reflexivity.
  - split; [exact Hw|apply Hs; reflexivity].
Defined.

Lemma what_user_error_without_source_run :
  what run_relpath run_sys_path0 utility_decamelize 1 ∅ (Some TypeError)
    user_type_error (PyTraceback [executor_frame; exec_frame])
  = Raise TypeError "can only join an iterable".
Proof.
  apply (what_user_error_without_source run_relpath run_sys_path0
           utility_decamelize 1 ∅ TypeError user_type_error
           [executor_frame] [] exec_frame).
  - left. reflexivity.
  - reflexivity.
  - constructor.
  - reflexivity.
Defined.

Lemma render_stops_at_foreign_cause_run :
  py_str 2 foreign_store wrapped_key_error = Ok "bad partition: 'nodes'".
Proof.
  apply (render_stops_at_foreign_cause foreign_store wrapped_key_error
           (raise_from (builtin_exc KeyError "'nodes'") 3) 4 0).
  - reflexivity.
  - reflexivity.
  - vm_compute. reflexivity.
  - reflexivity.
Defined.

Lemma job_error_message_format_run :
  py_str 1 ∅ (JobError_init JobNotStartedError None None)
  = Ok "[jobid=None]"
  /\ jobid (JobError_init JobNotStartedError None None) = Some None.
Proof.
  apply (job_error_message_format JobNotStartedError None None ∅ 0).
  reflexivity.
Defined.

Example timeout_message :
  message sleep_timeout
  = Some ("command 'sleep 10' timed out after 5s:" +:+ nl +:+
          "=== STDOUT ===" +:+ nl +:+ "=== STDERR ===").
Proof. vm_compute. reflexivity. Qed.

Example format_warning_reads_second_line :
  _format_warning run_relpath run_format_orig run_readlines
    run_colorize_option run_colorize "use sanity_patterns"
    warnings_ReframeDeprecationWarning "/home/user/work/checks/hello.py" 2
    None
  = Ok ("checks/hello.py:2: WARNING: use sanity_patterns" +:+ nl +:+
        "x = rfm.deprecated()" +:+ nl +:+ nl).
Proof. vm_compute. reflexivity. Qed.

Example format_warning_short_file :
  _format_warning run_relpath run_format_orig run_readlines
    run_colorize_option run_colorize "use sanity_patterns"
    warnings_ReframeDeprecationWarning "/home/user/work/checks/hello.py" 9
    None
  = Ok ("checks/hello.py:9: WARNING: use sanity_patterns" +:+ nl +:+
        "<no line information>" +:+ nl).
Proof. vm_compute. reflexivity. Qed.

Example format_warning_missing_file :
  _format_warning run_relpath run_format_orig run_readlines
    run_colorize_option run_colorize "use sanity_patterns"
    warnings_ReframeDeprecationWarning "sys" 1 None
  = Raise FileNotFoundError "No such file or directory".
Proof. vm_compute. reflexivity. Qed.

Example format_warning_other_module :
  _format_warning run_relpath run_format_orig run_readlines
    run_colorize_option run_colorize "use sanity_patterns"
    ReframeDeprecationWarning "/home/user/work/checks/hello.py" 2 None
  = Ok ("/home/user/work/checks/hello.py:2: ReframeDeprecationWarning: " +:+
        "use sanity_patterns" +:+ nl).
Proof. vm_compute. reflexivity. Qed.
